(** * The appointment-reminder scheduler (check-appointment-reminders)

    A shallow embedding of the edge function that, on each HTTP invocation,
    reads today's scheduled appointments, decides which of the reminder
    tiers 60 / 30 / 10 minutes is due, and for every due pair posts a
    reminder email and inserts an in-app notification row.

    The handler talks to four collaborators: the relational store (tables
    appointments, profiles, doctors, notifications), the user directory
    (auth admin API), the send-email function (HTTP POST) and the host
    clock.  The store contents are a [Database]; what the collaborators
    answer is an [Env]; the handler itself is a computation in a small
    state monad over the database and the chronological list of calls it
    has made. *)

From Stdlib Require Import ZArith List String Ascii Bool Lia DecimalString.
Import ListNotations.
Open Scope string_scope.
Open Scope Z_scope.

(* ================================================================== *)
(** ** JavaScript values used by the handler *)

Module JS.

(** [s.split(sep)] for a one-character separator: never the empty array,
    [''.split(':')] is [['']]. *)
Fixpoint split (sep : ascii) (s : string) : list string :=
  match s with
  | EmptyString => [EmptyString]
  | String c rest =>
      if Ascii.eqb c sep then EmptyString :: split sep rest
      else match split sep rest with
           | hd :: tl => String c hd :: tl
           | [] => [String c EmptyString]
           end
  end.

Definition digit_of (c : ascii) : option Z :=
  let n := Z.of_N (N_of_ascii c) in
  if (48 <=? n) && (n <=? 57) then Some (n - 48) else None.

Fixpoint Number_digits (acc : Z) (s : string) : option Z :=
  match s with
  | EmptyString => Some acc
  | String c rest =>
      match digit_of c with
      | Some d => Number_digits (acc * 10 + d) rest
      | None => None
      end
  end.

(** [Number(s)] on the texts a TIME column produces: a run of decimal
    digits is its value and the empty string is 0, as in JavaScript.
    [None] stands for NaN; texts with signs, blanks, fractions or
    exponents never come out of a TIME column and are mapped to NaN
    here. *)
Definition Number (s : string) : option Z := Number_digits 0 s.

(** A number inside a template literal: [`${n}`]. *)
Definition template (n : Z) : string := NilZero.string_of_int (Z.to_int n).

(** [String(n).padStart(w, '0')], used by [toISOString]. *)
Fixpoint zeros (k : nat) : string :=
  match k with
  | O => EmptyString
  | S k' => String "0" (zeros k')
  end.

Definition padStart (w : nat) (s : string) : string :=
  zeros (w - String.length s) ++ s.

(** [x || fallback] on an optional string: null, undefined and the empty
    string are falsy. *)
Definition truthy (x : option string) : bool :=
  match x with
  | Some s => negb (String.eqb s EmptyString)
  | None => false
  end.

Definition or_else (x : option string) (fallback : string) : string :=
  match x with
  | Some s => if String.eqb s EmptyString then fallback else s
  | None => fallback
  end.

(** The flat objects handed to [JSON.stringify]: property name and
    value, in the order the literal lists them. *)
Inductive JsonValue :=
| JBool (b : bool)
| JNum (n : Z)
| JStr (s : string).

Definition JsonObject := list (string * JsonValue).

End JS.

(* ================================================================== *)
(** ** The Date object *)

Module Date.

(** [new Date()]: the time value (milliseconds since the epoch, UTC) and
    the host's local time zone adjustment at that instant (milliseconds
    east of UTC), which is what the local getters add. *)
Record t := { timeValue : Z; LocalTZA : Z }.

Definition msPerDay : Z := 86400000.
Definition msPerHour : Z := 3600000.
Definition msPerMinute : Z := 60000.
Definition msPerSecond : Z := 1000.

Definition Day (tv : Z) : Z := tv / msPerDay.
Definition HourFromTime (tv : Z) : Z := (tv / msPerHour) mod 24.
Definition MinFromTime (tv : Z) : Z := (tv / msPerMinute) mod 60.
Definition SecFromTime (tv : Z) : Z := (tv / msPerSecond) mod 60.
Definition msFromTime (tv : Z) : Z := tv mod msPerSecond.

Definition LocalTime (d : t) : Z := timeValue d + LocalTZA d.

(** [d.getHours()] and [d.getMinutes()] read the local clock. *)
Definition getHours (d : t) : Z := HourFromTime (LocalTime d).
Definition getMinutes (d : t) : Z := MinFromTime (LocalTime d).

(** Day number to proleptic Gregorian (year, month, day). *)
Definition civil_from_days (days : Z) : Z * Z * Z :=
  let z := days + 719468 in
  let era := z / 146097 in
  let doe := z - era * 146097 in
  let yoe := (doe - doe / 1460 + doe / 36524 - doe / 146096) / 365 in
  let doy := doe - (365 * yoe + yoe / 4 - yoe / 100) in
  let mp := (5 * doy + 2) / 153 in
  let d := doy - (153 * mp + 2) / 5 + 1 in
  let m := if mp <? 10 then mp + 3 else mp - 9 in
  let y := yoe + era * 400 + (if m <=? 2 then 1 else 0) in
  (y, m, d).

Definition date_text (ymd : Z * Z * Z) : string :=
  let '(y, m, d) := ymd in
  JS.padStart 4 (JS.template y) ++ "-" ++ JS.padStart 2 (JS.template m)
    ++ "-" ++ JS.padStart 2 (JS.template d).

(** [d.toISOString()]: always UTC, [YYYY-MM-DDTHH:mm:ss.sssZ] (years 0
    to 9999; the expanded-year form outside that range is not modelled). *)
Definition toISOString (d : t) : string :=
  let tv := timeValue d in
  date_text (civil_from_days (Day tv)) ++ "T"
    ++ JS.padStart 2 (JS.template (HourFromTime tv)) ++ ":"
    ++ JS.padStart 2 (JS.template (MinFromTime tv)) ++ ":"
    ++ JS.padStart 2 (JS.template (SecFromTime tv)) ++ "."
    ++ JS.padStart 3 (JS.template (msFromTime tv)) ++ "Z".

(** Build a time value from a UTC civil date and time of day (inverse
    of [civil_from_days], used to write concrete instants). *)
Definition days_from_civil (y m d : Z) : Z :=
  let y' := if m <=? 2 then y - 1 else y in
  let era := y' / 400 in
  let yoe := y' - era * 400 in
  let mp := if m <=? 2 then m + 9 else m - 3 in
  let doy := (153 * mp + 2) / 5 + d - 1 in
  let doe := yoe * 365 + yoe / 4 - yoe / 100 + doy in
  era * 146097 + doe - 719468.

Definition UTC (y m d hh mm ss : Z) : Z :=
  days_from_civil y m d * msPerDay + hh * msPerHour + mm * msPerMinute
    + ss * msPerSecond.

End Date.

(** The text PostgREST returns for a TIME column: [HH:MM:SS]. *)
Definition time_text (h m s : Z) : string :=
  JS.padStart 2 (JS.template h) ++ ":" ++ JS.padStart 2 (JS.template m)
    ++ ":" ++ JS.padStart 2 (JS.template s).


(* ================================================================== *)
(** ** The store *)

(** A row of [public.appointments] (the columns the function selects or
    filters on).  [appointment_date] is the DATE column as the REST layer
    renders it, [YYYY-MM-DD], and [appointment_time] the TIME column,
    [HH:MM:SS]; [status] is a nullable TEXT column. *)
Module Appointment.
Record t := {
  id : string;
  patient_id : string;
  doctor_id : string;
  appointment_date : string;
  appointment_time : string;
  status : option string
}.
End Appointment.

Module Profile.
Record t := { user_id : string; full_name : option string }.
End Profile.

Module Doctor.
Record t := { id : string; full_name : string }.
End Doctor.

(** A user of the directory; a phone-only account has no email. *)
Module AuthUser.
Record t := { id : string; email : option string }.
End AuthUser.

(** The columns of [public.notifications] the function writes; the store
    fills in [id], [is_read] and [created_at] itself. *)
Module Notification.
Record t := {
  user_id : string;
  title : string;
  message : string;
  type : string;
  related_id : string;
  action_url : string
}.
End Notification.

Record Database := {
  appointments : list Appointment.t;
  profiles : list Profile.t;
  doctors : list Doctor.t;
  auth_users : list AuthUser.t;
  notifications : list Notification.t
}.

(** The body of the POST to the send-email function. *)
Module EmailPayload.
Record t := {
  type : string;
  to : string;
  patientName : string;
  doctorName : string;
  date : string;
  time : string;
  reminderMinutes : Z
}.
End EmailPayload.

(** What [fetch] does for one POST: it rejects (network failure), or the
    provider answers with a status and a body text. *)
Inductive EmailOutcome :=
| FetchRejected
| Responded (status : Z) (text : string).

Definition ok (o : EmailOutcome) : bool :=
  match o with
  | FetchRejected => false
  | Responded st _ => (200 <=? st) && (st <=? 299)
  end.

(** Everything outside the handler's control on one invocation. *)
Record Env := {
  SUPABASE_URL : string;
  SUPABASE_SERVICE_ROLE_KEY : string;
  (** [new Date()] *)
  now : Date.t;
  (** [Some message]: the appointments query comes back with an error
      carrying that message, and no data *)
  appointments_fault : option string;
  (** the answer of the send-email function to a POST *)
  send_email : EmailPayload.t -> EmailOutcome;
  (** whether the store accepts a notification row *)
  insert_accepted : Notification.t -> bool
}.

(** The requests the supabase client and [fetch] can issue.  The PostgREST
    verbs are all here; which of them the handler uses is a theorem. *)
Inductive Call :=
| Select (table : string) (filters : list (string * string)) (single : bool)
| Insert (table : string) (row : Notification.t)
| Update (table : string) (filters : list (string * string))
| Delete (table : string) (filters : list (string * string))
| AdminGetUserById (id : string)
| Post (url : string) (authorization : string) (body : EmailPayload.t).

Record Response := {
  status : Z;
  headers : list (string * string);
  body : option JS.JsonObject
}.

Definition corsHeaders : list (string * string) :=
  [("Access-Control-Allow-Origin", "*");
   ("Access-Control-Allow-Headers",
    "authorization, x-client-info, apikey, content-type")].

(* ================================================================== *)
(** ** Running the handler: state, calls and console *)

Inductive LogEntry :=
| console_log (msg : string)
| console_error (msg : string).

Record RunState := {
  db : Database;
  calls : list Call;
  console : list LogEntry
}.

Definition M (A : Type) : Type := RunState -> A * RunState.

Definition ret {A : Type} (a : A) : M A := fun st => (a, st).

Definition bind {A B : Type} (m : M A) (k : A -> M B) : M B :=
  fun st => let (a, st') := m st in k a st'.

Notation "x <- m ;; k" := (bind m (fun x => k))
  (at level 61, m at next level, right associativity).
Notation "m ;; k" := (bind m (fun _ => k))
  (at level 61, right associativity).

Definition read_db : M Database := fun st => (db st, st).

Definition issue (c : Call) : M unit :=
  fun st => (tt, {| db := db st; calls := (calls st ++ [c])%list; console := console st |}).

Definition log (e : LogEntry) : M unit :=
  fun st => (tt, {| db := db st; calls := calls st; console := (console st ++ [e])%list |}).

(** [for (const x of xs) body], with the variables the body updates
    threaded as [s]. *)
Fixpoint for_of {A S : Type} (xs : list A) (body : A -> S -> M S) (s : S) : M S :=
  match xs with
  | [] => ret s
  | x :: rest => s' <- body x s ;; for_of rest body s'
  end.

(** *** The supabase client *)

(** [.single()]: the row when exactly one matches, otherwise no data. *)
Definition single {A : Type} (rows : list A) : option A :=
  match rows with
  | [r] => Some r
  | _ => None
  end.

Definition status_is (a : Appointment.t) (v : string) : bool :=
  match Appointment.status a with
  | Some s => String.eqb s v
  | None => false
  end.

(** [from('appointments').select(...).eq('appointment_date', d).eq('status', s)]:
    the error message, or the matching rows. *)
Definition select_appointments (env : Env) (d s : string)
  : M (string + list Appointment.t) :=
  issue (Select "appointments" [("appointment_date", d); ("status", s)] false) ;;
  tables <- read_db ;;
  match appointments_fault env with
  | Some message => ret (inl message)
  | None =>
      ret (inr (filter (fun a => String.eqb (Appointment.appointment_date a) d
                                 && status_is a s)
                       (appointments tables)))
  end.

(** The three lookups as queries on the tables. *)
Definition profile_of (tables : Database) (user_id : string) : option Profile.t :=
  single (filter (fun p => String.eqb (Profile.user_id p) user_id) (profiles tables)).

Definition doctor_of (tables : Database) (id : string) : option Doctor.t :=
  single (filter (fun d => String.eqb (Doctor.id d) id) (doctors tables)).

Definition user_of (tables : Database) (id : string) : option AuthUser.t :=
  find (fun u => String.eqb (AuthUser.id u) id) (auth_users tables).

(** [from('profiles').select('full_name').eq('user_id', ...).single()] *)
Definition select_profile (user_id : string) : M (option Profile.t) :=
  issue (Select "profiles" [("user_id", user_id)] true) ;;
  tables <- read_db ;;
  ret (profile_of tables user_id).

(** [from('doctors').select('full_name').eq('id', ...).single()] *)
Definition select_doctor (id : string) : M (option Doctor.t) :=
  issue (Select "doctors" [("id", id)] true) ;;
  tables <- read_db ;;
  ret (doctor_of tables id).

(** [auth.admin.getUserById(id)] *)
Definition getUserById (id : string) : M (option AuthUser.t) :=
  issue (AdminGetUserById id) ;;
  tables <- read_db ;;
  ret (user_of tables id).

Definition push_rows (tables : Database) (rows : list Notification.t) : Database :=
  {| appointments := appointments tables;
     profiles := profiles tables;
     doctors := doctors tables;
     auth_users := auth_users tables;
     notifications := (notifications tables ++ rows)%list |}.

(** [from('notifications').insert(row)]: the row is appended when the
    store accepts it; the client reports a rejection in its result and
    does not throw. *)
Definition insert_notification (env : Env) (row : Notification.t) : M bool :=
  issue (Insert "notifications" row) ;;
  fun st =>
    if insert_accepted env row
    then (true, {| db := push_rows (db st) [row];
                   calls := calls st; console := console st |})
    else (false, st).

(** [fetch(`${supabaseUrl}/functions/v1/send-email`, { method: "POST", ... })] *)
Definition fetch_send_email (env : Env) (payload : EmailPayload.t) : M EmailOutcome :=
  issue (Post (SUPABASE_URL env ++ "/functions/v1/send-email")
              ("Bearer " ++ SUPABASE_SERVICE_ROLE_KEY env) payload) ;;
  ret (send_email env payload).

(* ================================================================== *)
(** ** The handler *)

Definition reminderMinutes : list Z := [60; 30; 10].

(** [aptHour * 60 + aptMinute] from [appointment_time.split(':').map(Number)];
    a missing second field or a NaN field makes the sum NaN ([None]). *)
Definition appointmentTimeInMinutes (appointment : Appointment.t) : option Z :=
  match map JS.Number (JS.split ":" (Appointment.appointment_time appointment)) with
  | Some aptHour :: Some aptMinute :: _ => Some (aptHour * 60 + aptMinute)
  | _ => None
  end.

Definition minutesUntilAppointment (currentHour currentMinute : Z)
  (appointment : Appointment.t) : option Z :=
  match appointmentTimeInMinutes appointment with
  | Some appointmentTime =>
      let currentTimeInMinutes := currentHour * 60 + currentMinute in
      Some (appointmentTime - currentTimeInMinutes)
  | None => None
  end.

(** The test of line 59; every comparison with NaN is false. *)
Definition reminder_due (minutesUntil : option Z) (reminderTime : Z) : bool :=
  match minutesUntil with
  | Some m => (m >=? reminderTime - 1) && (m <=? reminderTime + 1)
  | None => false
  end.

Definition todayDate (env : Env) : string :=
  hd EmptyString (JS.split "T" (Date.toISOString (now env))).

Definition currentHour (env : Env) : Z := Date.getHours (now env).
Definition currentMinute (env : Env) : Z := Date.getMinutes (now env).

Definition doctorName_of (doctorData : option Doctor.t) : string :=
  JS.or_else (option_map Doctor.full_name doctorData) "Doctor".

Definition patientName_of (profile : option Profile.t) : string :=
  JS.or_else (match profile with
              | Some p => Profile.full_name p
              | None => None
              end) "Patient".

(** [authUser?.user?.email] when it is truthy. *)
Definition patientEmail_of (authUser : option AuthUser.t) : option string :=
  match authUser with
  | Some u => if JS.truthy (AuthUser.email u) then AuthUser.email u else None
  | None => None
  end.

Definition emailPayload (appointment : Appointment.t) (reminderTime : Z)
  (patientEmail patientName doctorName : string) : EmailPayload.t :=
  {| EmailPayload.type := "appointment_reminder";
     EmailPayload.to := patientEmail;
     EmailPayload.patientName := patientName;
     EmailPayload.doctorName := doctorName;
     EmailPayload.date := Appointment.appointment_date appointment;
     EmailPayload.time := Appointment.appointment_time appointment;
     EmailPayload.reminderMinutes := reminderTime |}.

Definition notification_row (appointment : Appointment.t) (reminderTime : Z)
  (doctorName : string) : Notification.t :=
  {| Notification.user_id := Appointment.patient_id appointment;
     Notification.title := "Appointment in " ++ JS.template reminderTime ++ " minutes";
     Notification.message := "Your appointment with Dr. " ++ doctorName
                             ++ " starts in " ++ JS.template reminderTime ++ " minutes.";
     Notification.type := "appointment_reminder";
     Notification.related_id := Appointment.id appointment;
     Notification.action_url := "/appointments" |}.

(** Lines 83 to 111: the POST inside its own try/catch; a rejected fetch
    and a non-2xx answer are logged and nothing else. *)
Definition send_email_reminder (env : Env) (payload : EmailPayload.t) : M unit :=
  emailRes <- fetch_send_email env payload ;;
  match emailRes with
  | Responded st errorText =>
      if ok emailRes
      then log (console_log ("Email reminder sent to " ++ EmailPayload.to payload))
      else log (console_error ("Email reminder failed (" ++ JS.template st ++ ") for "
                               ++ EmailPayload.to payload ++ ": " ++ errorText))
  | FetchRejected => log (console_error "Error sending email reminder:")
  end.

(** Lines 60 to 124: the body of the [if] for one due pair. *)
Definition send_reminder (env : Env) (appointment : Appointment.t) (reminderTime : Z)
  (sentReminders : list string) : M (list string) :=
  log (console_log ("Sending " ++ JS.template reminderTime
                    ++ "-min reminder for appointment " ++ Appointment.id appointment)) ;;
  profile <- select_profile (Appointment.patient_id appointment) ;;
  doctorData <- select_doctor (Appointment.doctor_id appointment) ;;
  let doctorName := doctorName_of doctorData in
  authUser <- getUserById (Appointment.patient_id appointment) ;;
  match patientEmail_of authUser with
  | Some patientEmail =>
      send_email_reminder env
        (emailPayload appointment reminderTime patientEmail
           (patientName_of profile) doctorName)
  | None => ret tt
  end ;;
  insert_notification env (notification_row appointment reminderTime doctorName) ;;
  ret (sentReminders
         ++ [(Appointment.id appointment ++ "_" ++ JS.template reminderTime
              ++ "min")%string])%list.

Definition check_appointment (env : Env) (appointment : Appointment.t)
  (sentReminders : list string) : M (list string) :=
  let minutesUntil := minutesUntilAppointment (currentHour env) (currentMinute env)
                        appointment in
  for_of reminderMinutes
    (fun reminderTime sent =>
       if reminder_due minutesUntil reminderTime
       then send_reminder env appointment reminderTime sent
       else ret sent)
    sentReminders.

Definition json_headers : list (string * string) :=
  (corsHeaders ++ [("Content-Type", "application/json")])%list.

(** The [try] block: [inl message] is the thrown [fetchError]. *)
Definition try_block (env : Env) : M (string + Response) :=
  log (console_log ("Checking reminders at " ++ todayDate env ++ " "
                    ++ JS.template (currentHour env) ++ ":"
                    ++ JS.template (currentMinute env))) ;;
  fetched <- select_appointments env (todayDate env) "scheduled" ;;
  match fetched with
  | inl fetchError =>
      log (console_error "Error fetching appointments:") ;;
      ret (inl fetchError)
  | inr appointments =>
      log (console_log ("Found " ++ JS.template (Z.of_nat (List.length appointments))
                        ++ " scheduled appointments for today")) ;;
      sentReminders <- for_of appointments (check_appointment env) [] ;;
      log (console_log ("Sent " ++ JS.template (Z.of_nat (List.length sentReminders))
                        ++ " reminders")) ;;
      ret (inr {| status := 200;
                  headers := json_headers;
                  body := Some [("success", JS.JBool true);
                                ("remindersSent",
                                 JS.JNum (Z.of_nat (List.length sentReminders)))] |})
  end.

(** The function passed to [serve]. *)
Definition handler (env : Env) (method : string) : M Response :=
  if String.eqb method "OPTIONS"
  then ret {| status := 200; headers := corsHeaders; body := None |}
  else
    outcome <- try_block env ;;
    match outcome with
    | inr response => ret response
    | inl message =>
        log (console_error "Error in check-appointment-reminders:") ;;
        ret {| status := 500;
               headers := json_headers;
               body := Some [("error", JS.JStr message)] |}
    end.

(** One invocation on a store: the response and the state afterwards. *)
Definition invoke (env : Env) (method : string) (tables : Database)
  : Response * RunState :=
  handler env method {| db := tables; calls := []; console := [] |}.


(* ================================================================== *)
(** ** What one invocation amounts to *)

(** The rows the appointments query returns when it succeeds. *)
Definition candidates (env : Env) (tables : Database) : list Appointment.t :=
  filter (fun a => String.eqb (Appointment.appointment_date a) (todayDate env)
                   && status_is a "scheduled")
         (appointments tables).

Definition minutesUntil_of (env : Env) (a : Appointment.t) : option Z :=
  minutesUntilAppointment (currentHour env) (currentMinute env) a.

(** The (appointment, tier) pairs that pass the test of line 59, in the
    order the two loops visit them. *)
Definition due_tiers (env : Env) (a : Appointment.t) : list Z :=
  filter (reminder_due (minutesUntil_of env a)) reminderMinutes.

Definition due_pairs (env : Env) (apps : list Appointment.t)
  : list (Appointment.t * Z) :=
  flat_map (fun a => map (pair a) (due_tiers env a)) apps.

Definition reminder_key (p : Appointment.t * Z) : string :=
  Appointment.id (fst p) ++ "_" ++ JS.template (snd p) ++ "min".

Definition row_for (tables : Database) (p : Appointment.t * Z) : Notification.t :=
  notification_row (fst p) (snd p)
    (doctorName_of (doctor_of tables (Appointment.doctor_id (fst p)))).

Definition patientEmail_for (tables : Database) (p : Appointment.t * Z)
  : option string :=
  patientEmail_of (user_of tables (Appointment.patient_id (fst p))).

Definition payload_for (tables : Database) (p : Appointment.t * Z)
  (patientEmail : string) : EmailPayload.t :=
  emailPayload (fst p) (snd p) patientEmail
    (patientName_of (profile_of tables (Appointment.patient_id (fst p))))
    (doctorName_of (doctor_of tables (Appointment.doctor_id (fst p)))).

Definition post_for (env : Env) (tables : Database) (p : Appointment.t * Z)
  : list Call :=
  match patientEmail_for tables p with
  | Some patientEmail =>
      [Post (SUPABASE_URL env ++ "/functions/v1/send-email")
            ("Bearer " ++ SUPABASE_SERVICE_ROLE_KEY env)
            (payload_for tables p patientEmail)]
  | None => []
  end.

(** The calls one due pair causes, in order. *)
Definition pair_calls (env : Env) (tables : Database) (p : Appointment.t * Z)
  : list Call :=
  ([Select "profiles" [("user_id", Appointment.patient_id (fst p))] true;
    Select "doctors" [("id", Appointment.doctor_id (fst p))] true;
    AdminGetUserById (Appointment.patient_id (fst p))]
   ++ post_for env tables p
   ++ [Insert "notifications" (row_for tables p)])%list.

(** The rows a list of due pairs leaves in the notifications table. *)
Definition rows_created (env : Env) (tables : Database)
  (ps : list (Appointment.t * Z)) : list Notification.t :=
  filter (insert_accepted env) (map (row_for tables) ps).

Definition is_post (c : Call) : bool :=
  match c with Post _ _ _ => true | _ => false end.

Definition is_insert (c : Call) : bool :=
  match c with Insert _ _ => true | _ => false end.

(** A call that changes a table, and the only such call the scheduler is
    meant to make. *)
Definition is_write (c : Call) : bool :=
  match c with
  | Insert _ _ | Update _ _ | Delete _ _ => true
  | _ => false
  end.

Definition is_notification_insert (c : Call) : bool :=
  match c with
  | Insert table _ => String.eqb table "notifications"
  | _ => false
  end.

Definition success_response (n : nat) : Response :=
  {| status := 200;
     headers := json_headers;
     body := Some [("success", JS.JBool true);
                   ("remindersSent", JS.JNum (Z.of_nat n))] |}.

Definition error_response (message : string) : Response :=
  {| status := 500;
     headers := json_headers;
     body := Some [("error", JS.JStr message)] |}.

(** *** Texts without a separator *)

(** [lacks sep s]: the separator does not occur in [s]. *)
Fixpoint lacks (sep : ascii) (s : string) : bool :=
  match s with
  | EmptyString => true
  | String c rest => negb (Ascii.eqb c sep) && lacks sep rest
  end.

Definition two_digits (n : Z) : string := JS.padStart 2 (JS.template n).

Definition two_digits_ok (k : nat) : bool :=
  let n := Z.of_nat k in
  lacks ":" (two_digits n)
  && match JS.Number (two_digits n) with
     | Some v => v =? n
     | None => false
     end.


(** The effect of a loop that handles the pairs [ps], stated once for
    both loops: keys pushed, rows created, calls made. *)
Definition handles (env : Env) (ps : list (Appointment.t * Z))
  (sent : list string) (st : RunState) (r : list string * RunState) : Prop :=
  fst r = (sent ++ map reminder_key ps)%list
  /\ db (snd r) = push_rows (db st) (rows_created env (db st) ps)
  /\ calls (snd r) = (calls st ++ flat_map (pair_calls env (db st)) ps)%list.

(* ================================================================== *)
(** ** Scenarios *)

Definition with_send_email (env : Env) (f : EmailPayload.t -> EmailOutcome) : Env :=
  {| SUPABASE_URL := SUPABASE_URL env;
     SUPABASE_SERVICE_ROLE_KEY := SUPABASE_SERVICE_ROLE_KEY env;
     now := now env;
     appointments_fault := appointments_fault env;
     send_email := f;
     insert_accepted := insert_accepted env |}.

Definition with_insert_accepted (env : Env) (g : Notification.t -> bool) : Env :=
  {| SUPABASE_URL := SUPABASE_URL env;
     SUPABASE_SERVICE_ROLE_KEY := SUPABASE_SERVICE_ROLE_KEY env;
     now := now env;
     appointments_fault := appointments_fault env;
     send_email := send_email env;
     insert_accepted := g |}.

Definition with_fault (env : Env) (message : string) : Env :=
  {| SUPABASE_URL := SUPABASE_URL env;
     SUPABASE_SERVICE_ROLE_KEY := SUPABASE_SERVICE_ROLE_KEY env;
     now := now env;
     appointments_fault := Some message;
     send_email := send_email env;
     insert_accepted := insert_accepted env |}.

(** 17 January 2026, 13:30:30 on a server whose zone is UTC; every
    collaborator works. *)
Definition env_1330 : Env :=
  {| SUPABASE_URL := "https://project.supabase.co";
     SUPABASE_SERVICE_ROLE_KEY := "service-role-key";
     now := {| Date.timeValue := Date.UTC 2026 1 17 13 30 30; Date.LocalTZA := 0 |};
     appointments_fault := None;
     send_email := fun _ => Responded 200 "{}";
     insert_accepted := fun _ => true |}.

(** The same minute, 25 seconds later. *)
Definition env_1330_later : Env :=
  {| SUPABASE_URL := "https://project.supabase.co";
     SUPABASE_SERVICE_ROLE_KEY := "service-role-key";
     now := {| Date.timeValue := Date.UTC 2026 1 17 13 30 55; Date.LocalTZA := 0 |};
     appointments_fault := None;
     send_email := fun _ => Responded 200 "{}";
     insert_accepted := fun _ => true |}.

(** Ids are UUIDs, as the columns are typed: appointments a000000n-...,
    patients nnnnnnnn-..., the doctor d0c00001-.... *)
Definition appointment_at (id patient date time : string) : Appointment.t :=
  {| Appointment.id := id;
     Appointment.patient_id := patient;
     Appointment.doctor_id := "d0c00001-0000-4000-8000-000000000001";
     Appointment.appointment_date := date;
     Appointment.appointment_time := time;
     Appointment.status := Some "scheduled" |}.

Definition apt_1430 : Appointment.t :=
  appointment_at "a0000001-0000-4000-8000-000000000001"
    "11111111-1111-4111-8111-111111111111" "2026-01-17" "14:30:00".
Definition apt_0900 : Appointment.t :=
  appointment_at "a0000002-0000-4000-8000-000000000002"
    "22222222-2222-4222-8222-222222222222" "2026-01-17" "09:00:00".
Definition apt_1600 : Appointment.t :=
  appointment_at "a0000003-0000-4000-8000-000000000003"
    "33333333-3333-4333-8333-333333333333" "2026-01-17" "16:00:00".

(** Three candidates of which only the 14:30 one is in a window; names
    and email of its patient resolve. *)
Definition clinic : Database :=
  {| appointments := [apt_0900; apt_1430; apt_1600];
     profiles := [{| Profile.user_id := "11111111-1111-4111-8111-111111111111";
                     Profile.full_name := Some "Asha Rao" |}];
     doctors := [{| Doctor.id := "d0c00001-0000-4000-8000-000000000001";
                    Doctor.full_name := "Meera Nair" |}];
     auth_users := [{| AuthUser.id := "11111111-1111-4111-8111-111111111111";
                       AuthUser.email := Some "asha@example.org" |}];
     notifications := [] |}.

(** The same appointments, but no profile row, no doctor row; the
    patient's email is on file. *)
Definition clinic_without_names : Database :=
  {| appointments := [apt_0900; apt_1430; apt_1600];
     profiles := [];
     doctors := [];
     auth_users := [{| AuthUser.id := "11111111-1111-4111-8111-111111111111";
                       AuthUser.email := Some "asha@example.org" |}];
     notifications := [] |}.

(** The same appointments, but the patient has a phone-only account. *)
Definition clinic_without_email : Database :=
  {| appointments := [apt_0900; apt_1430; apt_1600];
     profiles := [{| Profile.user_id := "11111111-1111-4111-8111-111111111111";
                     Profile.full_name := Some "Asha Rao" |}];
     doctors := [{| Doctor.id := "d0c00001-0000-4000-8000-000000000001";
                    Doctor.full_name := "Meera Nair" |}];
     auth_users := [{| AuthUser.id := "11111111-1111-4111-8111-111111111111";
                       AuthUser.email := None |}];
     notifications := [] |}.

(** *** Local date against UTC date *)

(** The calendar date of the server's local clock, the date the hour
    and minute of [getHours] and [getMinutes] belong to. *)
Definition local_calendar_date (d : Date.t) : string :=
  Date.date_text (Date.civil_from_days (Date.Day (Date.LocalTime d))).

(** The candidates as the specification words them: today by the server's
    local clock, status scheduled. *)
Definition spec_candidates (env : Env) (tables : Database) : list Appointment.t :=
  filter (fun a => String.eqb (Appointment.appointment_date a)
                     (local_calendar_date (now env))
                   && status_is a "scheduled")
         (appointments tables).

(** 17 January 2026, 23:30:00 UTC on a server two hours east of UTC:
    the local clock shows 18 January, 01:30. *)
Definition env_east : Env :=
  {| SUPABASE_URL := "https://project.supabase.co";
     SUPABASE_SERVICE_ROLE_KEY := "service-role-key";
     now := {| Date.timeValue := Date.UTC 2026 1 17 23 30 0;
               Date.LocalTZA := 2 * Date.msPerHour |};
     appointments_fault := None;
     send_email := fun _ => Responded 200 "{}";
     insert_accepted := fun _ => true |}.

Definition apt_today_0230 : Appointment.t :=
  appointment_at "a0000004-0000-4000-8000-000000000004"
    "11111111-1111-4111-8111-111111111111" "2026-01-18" "02:30:00".
Definition apt_yesterday_0230 : Appointment.t :=
  appointment_at "a0000005-0000-4000-8000-000000000005"
    "11111111-1111-4111-8111-111111111111" "2026-01-17" "02:30:00".

Definition clinic_east : Database :=
  {| appointments := [apt_today_0230; apt_yesterday_0230];
     profiles := [{| Profile.user_id := "11111111-1111-4111-8111-111111111111";
                     Profile.full_name := Some "Asha Rao" |}];
     doctors := [{| Doctor.id := "d0c00001-0000-4000-8000-000000000001";
                    Doctor.full_name := "Meera Nair" |}];
     auth_users := [{| AuthUser.id := "11111111-1111-4111-8111-111111111111";
                       AuthUser.email := Some "asha@example.org" |}];
     notifications := [] |}.


(* ================================================================== *)
(** ** The console of a run, and runs in sequence *)

(** What lines 103 to 110 write for one POST. *)
Definition email_log (payload : EmailPayload.t) (o : EmailOutcome) : LogEntry :=
  match o with
  | Responded st errorText =>
      if ok o
      then console_log ("Email reminder sent to " ++ EmailPayload.to payload)
      else console_error ("Email reminder failed (" ++ JS.template st ++ ") for "
                          ++ EmailPayload.to payload ++ ": " ++ errorText)
  | FetchRejected => console_error "Error sending email reminder:"
  end.

(** The console entries one due pair causes, in order. *)
Definition pair_console (env : Env) (tables : Database) (p : Appointment.t * Z)
  : list LogEntry :=
  console_log ("Sending " ++ JS.template (snd p)
               ++ "-min reminder for appointment " ++ Appointment.id (fst p))
  :: match patientEmail_for tables p with
     | Some patientEmail =>
         [email_log (payload_for tables p patientEmail)
                    (send_email env (payload_for tables p patientEmail))]
     | None => []
     end.

Definition is_error (e : LogEntry) : bool :=
  match e with console_error _ => true | console_log _ => false end.

(** The due pairs whose email POST is made and does not come back 2xx. *)
Definition email_failed (env : Env) (tables : Database) (p : Appointment.t * Z)
  : bool :=
  match patientEmail_for tables p with
  | Some patientEmail => negb (ok (send_email env (payload_for tables p patientEmail)))
  | None => false
  end.

Definition narrates (env : Env) (ps : list (Appointment.t * Z))
  (st : RunState) (r : list string * RunState) : Prop :=
  console (snd r) = (console st ++ flat_map (pair_console env (db st)) ps)%list.

Definition with_now (env : Env) (d : Date.t) : Env :=
  {| SUPABASE_URL := SUPABASE_URL env;
     SUPABASE_SERVICE_ROLE_KEY := SUPABASE_SERVICE_ROLE_KEY env;
     now := d;
     appointments_fault := appointments_fault env;
     send_email := send_email env;
     insert_accepted := insert_accepted env |}.

(** One invocation after the other, each on the store the previous one
    left. *)
Fixpoint invoke_each (envs : list Env) (method : string) (tables : Database)
  : Database :=
  match envs with
  | [] => tables
  | env :: rest => invoke_each rest method (db (snd (invoke env method tables)))
  end.

(** The minutes 13:29, 13:30 and 13:31 of 17 January 2026. *)
Definition three_minutes : list Env :=
  [with_now env_1330 {| Date.timeValue := Date.UTC 2026 1 17 13 29 2; Date.LocalTZA := 0 |};
   with_now env_1330 {| Date.timeValue := Date.UTC 2026 1 17 13 30 2; Date.LocalTZA := 0 |};
   with_now env_1330 {| Date.timeValue := Date.UTC 2026 1 17 13 31 2; Date.LocalTZA := 0 |}].

(** An appointment half an hour after midnight. *)
Definition apt_0030 : Appointment.t :=
  appointment_at "a0000006-0000-4000-8000-000000000006"
    "11111111-1111-4111-8111-111111111111" "2026-01-17" "00:30:00".

(** Nothing is due at 13:30: one appointment long past, one far ahead. *)
Definition quiet_clinic : Database :=
  {| appointments := [apt_0900; apt_1600];
     profiles := [];
     doctors := [];
     auth_users := [];
     notifications := [] |}.

(* ================================================================== *)
(** ** The send-email function *)

(** The body of a request, as the [EmailRequest] interface declares it;
    [reminderMinutes] is optional. *)
Module EmailRequest.
Record t := {
  type : string;
  to : string;
  patientName : string;
  doctorName : string;
  date : string;
  time : string;
  reminderMinutes : option Z
}.
End EmailRequest.

(** The POST to the mail provider: URL, Authorization header and the
    four properties of the JSON body. *)
Module ResendRequest.
Record t := {
  url : string;
  authorization : string;
  from : string;
  to : list string;
  subject : string;
  html : string
}.
End ResendRequest.

(** What [await response.json()] gives: it rejects with a message; or it
    is [null], on which reading [.id] throws a TypeError with the
    runtime's message; or it is a value whose [id] is present or not. *)
Inductive AnswerJson :=
| JsonRejects (message : string)
| JsonNull (message : string)
| JsonValue (id : option JS.JsonValue).

(** The provider's answer: its status, what [await response.text()]
    gives ([inl message] when reading the body fails) and what
    [await response.json()] gives. *)
Record ResendAnswer := {
  answer_status : Z;
  answer_text : string + string;
  answer_json : AnswerJson
}.

(** The fetch rejects with a message, or the provider answers. *)
Inductive ResendOutcome :=
| ResendRejected (message : string)
| ResendAnswered (answer : ResendAnswer).

(** Everything outside the function's control on one invocation. *)
Record MailEnv := {
  (** [Deno.env.get("RESEND_API_KEY")] *)
  RESEND_API_KEY : option string;
  resend : ResendRequest.t -> ResendOutcome;
  (** the message of the error [new Response] throws for a status it
      refuses *)
  Response_init_message : Z -> string
}.

Record MailRun := {
  mail_response : Response;
  mail_requests : list ResendRequest.t;
  mail_console : list LogEntry
}.

(** The double quote, written in the templates as a character. *)
Definition dq : string := String (Ascii.ascii_of_nat 34) EmptyString.

(** [`${reminderMinutes}`]: an absent property prints as undefined. *)
Definition minutes_template (reminderMinutes : option Z) : string :=
  match reminderMinutes with
  | Some n => JS.template n
  | None => "undefined"
  end.

(** Lines 37 to 81. *)
Definition confirmation_html (patientName doctorName date time : string) : string :=
  "
        <!DOCTYPE html>
        <html>
        <head>
          <style>
            body { font-family: 'Segoe UI', Tahoma, Geneva, Verdana, sans-serif; background: #f5f5f5; margin: 0; padding: 20px; }
            .container { max-width: 600px; margin: 0 auto; background: white; border-radius: 16px; overflow: hidden; box-shadow: 0 4px 20px rgba(0,0,0,0.1); }
            .header { background: linear-gradient(135deg, #0d9488 0%, #14b8a6 100%); color: white; padding: 30px; text-align: center; }
            .header h1 { margin: 0; font-size: 24px; }
            .content { padding: 30px; }
            .appointment-card { background: #f0fdfa; border-radius: 12px; padding: 20px; margin: 20px 0; border-left: 4px solid #14b8a6; }
            .detail { display: flex; margin: 10px 0; }
            .label { color: #666; width: 100px; }
            .value { color: #333; font-weight: 600; }
            .footer { background: #f9fafb; padding: 20px; text-align: center; color: #666; font-size: 12px; }
          </style>
        </head>
        <body>
          <div class="
  ++ dq
  ++ "container"
  ++ dq
  ++ ">
            <div class="
  ++ dq
  ++ "header"
  ++ dq
  ++ ">
              <h1>CURAX Healthcare</h1>
              <p>Appointment Confirmed</p>
            </div>
            <div class="
  ++ dq
  ++ "content"
  ++ dq
  ++ ">
              <p>Dear <strong>"
  ++ patientName
  ++ "</strong>,</p>
              <p>Your appointment has been successfully scheduled!</p>
              
              <div class="
  ++ dq
  ++ "appointment-card"
  ++ dq
  ++ ">
                <div class="
  ++ dq
  ++ "detail"
  ++ dq
  ++ "><span class="
  ++ dq
  ++ "label"
  ++ dq
  ++ ">Doctor:</span><span class="
  ++ dq
  ++ "value"
  ++ dq
  ++ ">"
  ++ doctorName
  ++ "</span></div>
                <div class="
  ++ dq
  ++ "detail"
  ++ dq
  ++ "><span class="
  ++ dq
  ++ "label"
  ++ dq
  ++ ">Date:</span><span class="
  ++ dq
  ++ "value"
  ++ dq
  ++ ">"
  ++ date
  ++ "</span></div>
                <div class="
  ++ dq
  ++ "detail"
  ++ dq
  ++ "><span class="
  ++ dq
  ++ "label"
  ++ dq
  ++ ">Time:</span><span class="
  ++ dq
  ++ "value"
  ++ dq
  ++ ">"
  ++ time
  ++ "</span></div>
              </div>
              
              <p>Please arrive 10 minutes before your scheduled time.</p>
              <p>If you need to reschedule, please do so at least 24 hours in advance.</p>
              
              <p>Best regards,<br><strong>The CURAX Team</strong></p>
            </div>
            <div class="
  ++ dq
  ++ "footer"
  ++ dq
  ++ ">
              <p>This is an automated message from CURAX Healthcare System</p>
            </div>
          </div>
        </body>
        </html>
      ".

(** Lines 84 to 127. *)
Definition reminder_html (patientName doctorName date time minutes_text : string)
  : string :=
  "
        <!DOCTYPE html>
        <html>
        <head>
          <style>
            body { font-family: 'Segoe UI', Tahoma, Geneva, Verdana, sans-serif; background: #f5f5f5; margin: 0; padding: 20px; }
            .container { max-width: 600px; margin: 0 auto; background: white; border-radius: 16px; overflow: hidden; box-shadow: 0 4px 20px rgba(0,0,0,0.1); }
            .header { background: linear-gradient(135deg, #f59e0b 0%, #fbbf24 100%); color: white; padding: 30px; text-align: center; }
            .header h1 { margin: 0; font-size: 24px; }
            .content { padding: 30px; }
            .reminder-card { background: #fffbeb; border-radius: 12px; padding: 20px; margin: 20px 0; border-left: 4px solid #f59e0b; }
            .detail { display: flex; margin: 10px 0; }
            .label { color: #666; width: 100px; }
            .value { color: #333; font-weight: 600; }
            .footer { background: #f9fafb; padding: 20px; text-align: center; color: #666; font-size: 12px; }
          </style>
        </head>
        <body>
          <div class="
  ++ dq
  ++ "container"
  ++ dq
  ++ ">
            <div class="
  ++ dq
  ++ "header"
  ++ dq
  ++ ">
              <h1>Appointment Reminder</h1>
              <p>Your appointment is in "
  ++ minutes_text
  ++ " minutes!</p>
            </div>
            <div class="
  ++ dq
  ++ "content"
  ++ dq
  ++ ">
              <p>Dear <strong>"
  ++ patientName
  ++ "</strong>,</p>
              <p>This is a friendly reminder about your upcoming appointment.</p>
              
              <div class="
  ++ dq
  ++ "reminder-card"
  ++ dq
  ++ ">
                <div class="
  ++ dq
  ++ "detail"
  ++ dq
  ++ "><span class="
  ++ dq
  ++ "label"
  ++ dq
  ++ ">Doctor:</span><span class="
  ++ dq
  ++ "value"
  ++ dq
  ++ ">"
  ++ doctorName
  ++ "</span></div>
                <div class="
  ++ dq
  ++ "detail"
  ++ dq
  ++ "><span class="
  ++ dq
  ++ "label"
  ++ dq
  ++ ">Date:</span><span class="
  ++ dq
  ++ "value"
  ++ dq
  ++ ">"
  ++ date
  ++ "</span></div>
                <div class="
  ++ dq
  ++ "detail"
  ++ dq
  ++ "><span class="
  ++ dq
  ++ "label"
  ++ dq
  ++ ">Time:</span><span class="
  ++ dq
  ++ "value"
  ++ dq
  ++ ">"
  ++ time
  ++ "</span></div>
              </div>
              
              <p>Please make sure you're ready for your appointment!</p>
              
              <p>Best regards,<br><strong>The CURAX Team</strong></p>
            </div>
            <div class="
  ++ dq
  ++ "footer"
  ++ dq
  ++ ">
              <p>This is an automated message from CURAX Healthcare System</p>
            </div>
          </div>
        </body>
        </html>
      ".

Definition subject_of (request : EmailRequest.t) : string :=
  if String.eqb (EmailRequest.type request) "appointment_confirmation"
  then "Appointment Confirmed - CURAX Healthcare"
  else "Appointment Reminder ("
       ++ minutes_template (EmailRequest.reminderMinutes request)
       ++ " min) - CURAX Healthcare".

Definition html_of (request : EmailRequest.t) : string :=
  if String.eqb (EmailRequest.type request) "appointment_confirmation"
  then confirmation_html (EmailRequest.patientName request)
         (EmailRequest.doctorName request) (EmailRequest.date request)
         (EmailRequest.time request)
  else reminder_html (EmailRequest.patientName request)
         (EmailRequest.doctorName request) (EmailRequest.date request)
         (EmailRequest.time request)
         (minutes_template (EmailRequest.reminderMinutes request)).

(** Lines 130 to 142. *)
Definition resend_request (key : string) (request : EmailRequest.t)
  : ResendRequest.t :=
  {| ResendRequest.url := "https://api.resend.com/emails";
     ResendRequest.authorization := "Bearer " ++ key;
     ResendRequest.from := "CURAX Healthcare <onboarding@resend.dev>";
     ResendRequest.to := [EmailRequest.to request];
     ResendRequest.subject := subject_of request;
     ResendRequest.html := html_of request |}.

(** [!RESEND_API_KEY] is true for an unset variable and for an empty one. *)
Definition configured_key (menv : MailEnv) : option string :=
  if JS.truthy (RESEND_API_KEY menv) then RESEND_API_KEY menv else None.

Definition status_ok (st : Z) : bool := (200 <=? st) && (st <=? 299).

(** [new Response(body, { status })] with a body: a RangeError outside
    200 to 599, a TypeError for a null-body status. *)
Definition null_body_status (st : Z) : bool :=
  (st =? 101) || (st =? 103) || (st =? 204) || (st =? 205) || (st =? 304).

Definition Response_init_allowed (st : Z) : bool :=
  (200 <=? st) && (st <=? 599) && negb (null_body_status st).

(** The [catch] block, lines 163 to 168. *)
Definition mail_failure (message : string) (requests : list ResendRequest.t)
  (console_so_far : list LogEntry) : MailRun :=
  {| mail_response := error_response message;
     mail_requests := requests;
     mail_console := (console_so_far ++ [console_error "Error sending email:"])%list |}.

Definition id_field (id : option JS.JsonValue) : JS.JsonObject :=
  match id with
  | Some v => [("id", v)]
  | None => []
  end.

(** The function passed to [serve]; [req_json] is what [await req.json()]
    and the destructuring give: [inl message] when they throw. *)
Definition send_email_handler (menv : MailEnv) (method : string)
  (req_json : string + EmailRequest.t) : MailRun :=
  if String.eqb method "OPTIONS"
  then {| mail_response := {| status := 200; headers := corsHeaders; body := None |};
          mail_requests := [];
          mail_console := [] |}
  else
    match configured_key menv with
    | None => mail_failure "RESEND_API_KEY not configured" [] []
    | Some key =>
        match req_json with
        | inl message => mail_failure message [] []
        | inr request =>
            let said := [console_log ("Sending " ++ EmailRequest.type request
                                      ++ " email to " ++ EmailRequest.to request)] in
            let outgoing := resend_request key request in
            match resend menv outgoing with
            | ResendRejected message => mail_failure message [outgoing] said
            | ResendAnswered answer =>
                if negb (status_ok (answer_status answer))
                then
                  match answer_text answer with
                  | inl message => mail_failure message [outgoing] said
                  | inr errorText =>
                      let said' := (said ++ [console_error ("Resend API error: "
                                                            ++ errorText)])%list in
                      if Response_init_allowed (answer_status answer)
                      then
                        {| mail_response :=
                             {| status := answer_status answer;
                                headers := json_headers;
                                body := Some [("success", JS.JBool false);
                                              ("status", JS.JNum (answer_status answer));
                                              ("error", JS.JStr errorText)] |};
                           mail_requests := [outgoing];
                           mail_console := said' |}
                      else
                        mail_failure (Response_init_message menv (answer_status answer))
                          [outgoing] said'
                  end
                else
                  match answer_json answer with
                  | JsonRejects message => mail_failure message [outgoing] said
                  | JsonNull message =>
                      mail_failure message [outgoing]
                        (said ++ [console_log "Email sent successfully:"])
                  | JsonValue id =>
                      {| mail_response :=
                           {| status := 200;
                              headers := json_headers;
                              body := Some (("success", JS.JBool true) :: id_field id) |};
                         mail_requests := [outgoing];
                         mail_console :=
                           (said ++ [console_log "Email sent successfully:"])%list |}
                  end
            end
        end
    end.

(** *** The scheduler's POST answered by the function *)

(** The body the scheduler posts, read back by [req.json()]. *)
Definition request_of_payload (payload : EmailPayload.t) : EmailRequest.t :=
  {| EmailRequest.type := EmailPayload.type payload;
     EmailRequest.to := EmailPayload.to payload;
     EmailRequest.patientName := EmailPayload.patientName payload;
     EmailRequest.doctorName := EmailPayload.doctorName payload;
     EmailRequest.date := EmailPayload.date payload;
     EmailRequest.time := EmailPayload.time payload;
     EmailRequest.reminderMinutes := Some (EmailPayload.reminderMinutes payload) |}.

(** What the scheduler's [fetch] resolves to when its POST reaches the
    function: the function's status and the text of its body, written by
    [stringify] (the runtime's [JSON.stringify]). *)
Definition answer_of_send_email (stringify : JS.JsonObject -> string)
  (menv : MailEnv) (payload : EmailPayload.t) : EmailOutcome :=
  let run := send_email_handler menv "POST" (inr (request_of_payload payload)) in
  Responded (status (mail_response run))
    (match body (mail_response run) with
     | Some object => stringify object
     | None => EmptyString
     end).

(** A mail environment without key, and one whose provider answers 403
    (its testing mode) to everything. *)
Definition mail_without_key : MailEnv :=
  {| RESEND_API_KEY := None;
     resend := fun _ => ResendRejected "unreachable";
     Response_init_message := fun _ => "invalid status" |}.

Definition mail_testing_mode : MailEnv :=
  {| RESEND_API_KEY := Some "re_test";
     resend := fun _ => ResendAnswered
                          {| answer_status := 403;
                             answer_text := inr "testing mode";
                             answer_json := JsonRejects "not read" |};
     Response_init_message := fun _ => "invalid status" |}.

Definition mail_accepting : MailEnv :=
  {| RESEND_API_KEY := Some "re_live";
     resend := fun _ => ResendAnswered
                          {| answer_status := 200;
                             answer_text := inr "{}";
                             answer_json := JsonValue (Some (JS.JStr "email-1")) |};
     Response_init_message := fun _ => "invalid status" |}.

Definition reminder_request : EmailRequest.t :=
  request_of_payload (payload_for clinic (apt_1430, 60) "asha@example.org").

(* ================================================================== *)
(** ** Lemmas on the store and the loops *)

Lemma push_rows_nil (tables : Database) : push_rows tables [] = tables.
Proof.
  destruct tables; unfold push_rows; simpl. now rewrite app_nil_r.
Qed.

Lemma push_rows_app (tables : Database) (r1 r2 : list Notification.t) :
  push_rows (push_rows tables r1) r2 = push_rows tables (r1 ++ r2).
Proof.
  unfold push_rows; simpl. now rewrite app_assoc.
Qed.

Section Loops.

Variable env : Env.

(** One due pair: the key is pushed, the row is appended when accepted,
    and the calls are [pair_calls], whatever the email outcome. *)
Lemma send_reminder_run a t sent st :
  let r := send_reminder env a t sent st in
  fst r = (sent ++ [reminder_key (a, t)])%list
  /\ db (snd r) = push_rows (db st) (rows_created env (db st) [(a, t)])
  /\ calls (snd r) = (calls st ++ pair_calls env (db st) (a, t))%list.
Proof.
  unfold send_reminder, pair_calls, post_for, patientEmail_for, rows_created,
    payload_for, row_for, select_profile, select_doctor, getUserById,
    insert_notification, send_email_reminder, fetch_send_email,
    bind, ret, issue, log, read_db; simpl.
  destruct (patientEmail_of (user_of (db st) (Appointment.patient_id a)))
    as [e|]; simpl.
  - destruct (send_email env _) as [|code text]; simpl;
      [| destruct ((200 <=? code) && (code <=? 299)); simpl ];
      (destruct (insert_accepted env _); simpl;
       [ repeat split; try reflexivity; now rewrite <- !app_assoc
       | repeat split; [now rewrite push_rows_nil | now rewrite <- !app_assoc] ]).
  - destruct (insert_accepted env _); simpl;
      [ repeat split; try reflexivity; now rewrite <- !app_assoc
      | repeat split; [now rewrite push_rows_nil | now rewrite <- !app_assoc] ].
Qed.

Lemma rows_created_push_rows tables rows ps :
  rows_created env (push_rows tables rows) ps = rows_created env tables ps.
Proof. reflexivity. Qed.

Lemma rows_created_app tables ps qs :
  rows_created env tables (ps ++ qs)
  = (rows_created env tables ps ++ rows_created env tables qs)%list.
Proof.
  unfold rows_created. now rewrite map_app, filter_app.
Qed.

Lemma for_of_cons {A S : Type} (x : A) (xs : list A) (body : A -> S -> M S)
  (s : S) (st : RunState) :
  for_of (x :: xs) body s st
  = for_of xs body (fst (body x s st)) (snd (body x s st)).
Proof.
  simpl. unfold bind. now destruct (body x s st).
Qed.

Lemma handles_nil sent st : handles env [] sent st (sent, st).
Proof.
  unfold handles; simpl.
  now rewrite !app_nil_r, push_rows_nil.
Qed.

Lemma handles_trans ps qs sent st r1 r2 :
  handles env ps sent st r1 ->
  handles env qs (fst r1) (snd r1) r2 ->
  handles env (ps ++ qs) sent st r2.
Proof.
  intros (K1 & D1 & C1) (K2 & D2 & C2).
  unfold handles.
  rewrite K2, K1, D2, C2, C1, D1.
  rewrite rows_created_push_rows, push_rows_app, rows_created_app.
  rewrite map_app, flat_map_app, <- !app_assoc.
  repeat split.
Qed.

Lemma send_reminder_handles a t sent st :
  handles env [(a, t)] sent st (send_reminder env a t sent st).
Proof.
  destruct (send_reminder_run a t sent st) as (K & D & C).
  unfold handles; simpl. rewrite app_nil_r. auto.
Qed.

(** The inner loop, over any list of tiers. *)
Lemma tier_loop_handles a tiers :
  forall sent st,
    handles env
      (map (pair a) (filter (reminder_due (minutesUntil_of env a)) tiers))
      sent st
      (for_of tiers
         (fun reminderTime sent' =>
            if reminder_due (minutesUntil_of env a) reminderTime
            then send_reminder env a reminderTime sent'
            else ret sent')
         sent st).
Proof.
  induction tiers as [|t tiers IH]; intros sent st.
  - apply handles_nil.
  - rewrite for_of_cons. simpl filter.
    destruct (reminder_due (minutesUntil_of env a) t) eqn:Due.
    + change (map (pair a) (t :: filter (reminder_due (minutesUntil_of env a)) tiers))
        with ([(a, t)] ++ map (pair a)
                (filter (reminder_due (minutesUntil_of env a)) tiers))%list.
      eapply handles_trans; [apply send_reminder_handles | apply IH].
    + apply IH.
Qed.

Lemma check_appointment_handles a sent st :
  handles env (map (pair a) (due_tiers env a)) sent st
    (check_appointment env a sent st).
Proof. apply tier_loop_handles. Qed.

(** The outer loop. *)
Lemma appointment_loop_handles apps :
  forall sent st,
    handles env (due_pairs env apps) sent st
      (for_of apps (check_appointment env) sent st).
Proof.
  induction apps as [|a apps IH]; intros sent st.
  - apply handles_nil.
  - rewrite for_of_cons.
    change (due_pairs env (a :: apps))
      with (map (pair a) (due_tiers env a) ++ due_pairs env apps)%list.
    eapply handles_trans; [apply check_appointment_handles | apply IH].
Qed.

End Loops.

(** A whole invocation whose appointments query succeeds. *)
Lemma invoke_success env method tables :
  String.eqb method "OPTIONS" = false ->
  appointments_fault env = None ->
  let ps := due_pairs env (candidates env tables) in
  let r := invoke env method tables in
  fst r = success_response (List.length ps)
  /\ db (snd r) = push_rows tables (rows_created env tables ps)
  /\ calls (snd r)
     = Select "appointments"
         [("appointment_date", todayDate env); ("status", "scheduled")] false
       :: flat_map (pair_calls env tables) ps.
Proof.
  intros Hm Hf ps r. subst r ps.
  unfold invoke, handler. rewrite Hm.
  cbv beta iota delta [try_block select_appointments bind ret log issue read_db].
  cbv beta iota delta [db calls console].
  rewrite Hf. cbv beta iota.
  fold (candidates env tables).
  match goal with
  | |- context [for_of ?apps ?body ?s ?st] =>
      pose proof (appointment_loop_handles env apps s st) as H;
      destruct (for_of apps body s st) as [sent st'] eqn:E
  end.
  destruct H as (K & D & C).
  simpl in K, D, C.
  cbv beta iota delta [fst snd].
  cbv beta iota delta [db calls].
  fold (db st') (calls st').
  subst sent. unfold success_response.
  rewrite length_map. auto.
Qed.

(** A whole invocation whose appointments query fails. *)
Lemma invoke_fault env method tables message :
  String.eqb method "OPTIONS" = false ->
  appointments_fault env = Some message ->
  let r := invoke env method tables in
  fst r = error_response message
  /\ db (snd r) = tables
  /\ calls (snd r)
     = [Select "appointments"
          [("appointment_date", todayDate env); ("status", "scheduled")] false].
Proof.
  intros Hm Hf r. subst r.
  unfold invoke, handler. rewrite Hm.
  cbv beta iota delta [try_block select_appointments bind ret log issue read_db].
  cbv beta iota delta [db calls console].
  rewrite Hf.
  cbv beta iota delta [bind ret log fst snd db calls console error_response].
  repeat split.
Qed.

(** A preflight request does nothing. *)
Lemma invoke_options env tables :
  invoke env "OPTIONS" tables
  = ({| status := 200; headers := corsHeaders; body := None |},
     {| db := tables; calls := []; console := [] |}).
Proof. reflexivity. Qed.

(* ================================================================== *)
(** ** Parsing the TIME column *)

Lemma split_field (sep : ascii) (field rest : string) :
  lacks sep field = true ->
  JS.split sep (field ++ String sep rest) = field :: JS.split sep rest.
Proof.
  induction field as [|c field IH]; simpl; intros H.
  - now rewrite Ascii.eqb_refl.
  - apply andb_true_iff in H. destruct H as [Hc Hf].
    apply negb_true_iff in Hc. rewrite Hc.
    now rewrite (IH Hf).
Qed.

Lemma lacks_app (sep : ascii) (s1 s2 : string) :
  lacks sep (s1 ++ s2) = lacks sep s1 && lacks sep s2.
Proof.
  induction s1 as [|c s1 IH]; simpl; [reflexivity|].
  now rewrite IH, andb_assoc.
Qed.

Lemma lacks_T_uint (d : Decimal.uint) :
  lacks "T" (NilEmpty.string_of_uint d) = true.
Proof. induction d; simpl; auto. Qed.

Lemma lacks_T_template (n : Z) : lacks "T" (JS.template n) = true.
Proof.
  unfold JS.template, NilZero.string_of_int, NilZero.string_of_uint.
  destruct (Z.to_int n) as [d|d]; destruct d; simpl; auto using lacks_T_uint.
Qed.

Lemma lacks_T_padStart (w : nat) (n : Z) :
  lacks "T" (JS.padStart w (JS.template n)) = true.
Proof.
  unfold JS.padStart. rewrite lacks_app, lacks_T_template, andb_true_r.
  induction (w - String.length (JS.template n))%nat; simpl; auto.
Qed.

Lemma lacks_T_date_text (ymd : Z * Z * Z) : lacks "T" (Date.date_text ymd) = true.
Proof.
  destruct ymd as [[y m] d]. unfold Date.date_text.
  rewrite !lacks_app, !lacks_T_padStart. reflexivity.
Qed.

Lemma two_digits_table : forallb two_digits_ok (seq 0 100) = true.
Proof. vm_compute. reflexivity. Qed.

Lemma two_digits_field (n : Z) :
  0 <= n < 100 ->
  lacks ":" (two_digits n) = true /\ JS.Number (two_digits n) = Some n.
Proof.
  intros Hn.
  pose proof two_digits_table as T.
  rewrite forallb_forall in T.
  specialize (T (Z.to_nat n)).
  assert (Hin : In (Z.to_nat n) (seq 0 100)) by (apply in_seq; lia).
  specialize (T Hin). unfold two_digits_ok in T.
  rewrite Z2Nat.id in T by lia.
  apply andb_true_iff in T. destruct T as [T1 T2]. split; [exact T1|].
  destruct (JS.Number (two_digits n)) as [v|]; [|discriminate].
  apply Z.eqb_eq in T2. now subst.
Qed.

(** A TIME value [h:m:s] comes back as [HH:MM:SS] and is read as
    [h * 60 + m] minutes since midnight. *)
Lemma appointmentTimeInMinutes_time_text (a : Appointment.t) (h m s : Z) :
  Appointment.appointment_time a = time_text h m s ->
  0 <= h < 24 -> 0 <= m < 60 ->
  appointmentTimeInMinutes a = Some (h * 60 + m).
Proof.
  intros Ht Hh Hm.
  unfold appointmentTimeInMinutes. rewrite Ht. unfold time_text.
  fold (two_digits h) (two_digits m) (two_digits s).
  destruct (two_digits_field h ltac:(lia)) as [Ch Nh].
  destruct (two_digits_field m ltac:(lia)) as [Cm Nm].
  change (two_digits h ++ ":" ++ two_digits m ++ ":" ++ two_digits s)
    with (two_digits h ++ String ":" (two_digits m ++ String ":" (two_digits s))).
  rewrite (split_field _ _ _ Ch), (split_field _ _ _ Cm).
  simpl map. now rewrite Nh, Nm.
Qed.

Lemma reminder_due_iff (m t : Z) :
  reminder_due (Some m) t = true <-> t - 1 <= m <= t + 1.
Proof.
  unfold reminder_due. rewrite andb_true_iff, Z.geb_le, Z.leb_le. tauto.
Qed.

Lemma in_due_pairs env apps a t :
  In (a, t) (due_pairs env apps)
  <-> In a apps /\ In t reminderMinutes
      /\ reminder_due (minutesUntil_of env a) t = true.
Proof.
  unfold due_pairs, due_tiers. rewrite in_flat_map. split.
  - intros (a' & Ha & Hin). apply in_map_iff in Hin.
    destruct Hin as (t' & Heq & Ht). inversion Heq; subst.
    apply filter_In in Ht. tauto.
  - intros (Ha & Ht & Hd). exists a. split; [exact Ha|].
    apply in_map. apply filter_In. tauto.
Qed.

(* ================================================================== *)
(** ** Tier windows *)

(** C1. For a candidate appointment whose TIME value is h:m:s, a tier t
    of 60, 30, 10 is due exactly when minutesUntil = (h*60 + m) -
    (currentHour*60 + currentMinute) lies in [t - 1, t + 1]; the pair is
    then among the pairs the invocation handles.  The 60-minute tier is
    due at 59, 60 and 61 minutes and not at 58 or 62. *)
Theorem C1_tier_due_iff_within_one_minute :
  forall (env : Env) (tables : Database) (a : Appointment.t) (h m s t : Z),
    In a (candidates env tables) ->
    Appointment.appointment_time a = time_text h m s ->
    0 <= h < 24 -> 0 <= m < 60 ->
    In t reminderMinutes ->
    let minutesUntil := (h * 60 + m) - (currentHour env * 60 + currentMinute env) in
    minutesUntil_of env a = Some minutesUntil
    /\ (reminder_due (minutesUntil_of env a) t = true
        <-> t - 1 <= minutesUntil <= t + 1)
    /\ (In (a, t) (due_pairs env (candidates env tables))
        <-> t - 1 <= minutesUntil <= t + 1)
    /\ reminder_due (Some 59) 60 = true
    /\ reminder_due (Some 60) 60 = true
    /\ reminder_due (Some 61) 60 = true
    /\ reminder_due (Some 58) 60 = false
    /\ reminder_due (Some 62) 60 = false.
Proof.
  intros env tables a h m s t Hc Ht Hh Hm Hin mu.
  assert (E : minutesUntil_of env a = Some mu).
  { unfold minutesUntil_of, minutesUntilAppointment.
    now rewrite (appointmentTimeInMinutes_time_text a h m s Ht Hh Hm). }
  split; [exact E|].
  split; [rewrite E; apply reminder_due_iff|].
  split.
  - rewrite in_due_pairs, E, reminder_due_iff. tauto.
  - repeat split; reflexivity.
Qed.

Lemma C1_witness_1430_seen_at_1330 :
  In apt_1430 (candidates env_1330 clinic)
  /\ Appointment.appointment_time apt_1430 = time_text 14 30 0
  /\ In 60 reminderMinutes
  /\ minutesUntil_of env_1330 apt_1430 = Some 60
  /\ (reminder_due (minutesUntil_of env_1330 apt_1430) 60 = true
      <-> 60 - 1 <= 60 <= 60 + 1).
Proof.
  assert (Hc : In apt_1430 (candidates env_1330 clinic))
    by (vm_compute; right; left; reflexivity).
  assert (Ht : Appointment.appointment_time apt_1430 = time_text 14 30 0)
    by reflexivity.
  assert (Hin : In 60 reminderMinutes) by (vm_compute; left; reflexivity).
  pose proof (C1_tier_due_iff_within_one_minute env_1330 clinic apt_1430
                14 30 0 60 Hc Ht ltac:(lia) ltac:(lia) Hin) as W.
  destruct W as (W1 & W2 & _).
  split; [exact Hc|]. split; [exact Ht|]. split; [exact Hin|].
  split; [exact W1|exact W2].
Defined.

(** C10. The windows [59,61], [29,31] and [9,11] are pairwise disjoint:
    whatever minutesUntil is (NaN included), two tiers that are both due
    are the same tier, so at most one tier is due for an appointment; a
    negative minutesUntil matches no tier. *)
Theorem C10_tier_windows_disjoint :
  forall (env : Env) (a : Appointment.t) (minutesUntil : option Z),
    (forall t1 t2,
        In t1 reminderMinutes -> In t2 reminderMinutes ->
        reminder_due minutesUntil t1 = true ->
        reminder_due minutesUntil t2 = true -> t1 = t2)
    /\ (List.length (filter (reminder_due minutesUntil) reminderMinutes) <= 1)%nat
    /\ (List.length (due_tiers env a) <= 1)%nat
    /\ (forall m, m < 0 -> filter (reminder_due (Some m)) reminderMinutes = []).
Proof.
  intros env a mu.
  assert (L : forall o, (List.length (filter (reminder_due o) reminderMinutes) <= 1)%nat).
  { intros [x|]; [|simpl; lia].
    unfold reminderMinutes. cbn [filter].
    destruct (reminder_due (Some x) 60) eqn:A;
      destruct (reminder_due (Some x) 30) eqn:B;
      destruct (reminder_due (Some x) 10) eqn:C;
      cbn [List.length]; try lia;
      rewrite ?reminder_due_iff in *; lia. }
  split; [|split; [apply L|split; [apply L|]]].
  - intros t1 t2 H1 H2 D1 D2.
    destruct mu as [x|]; [|discriminate].
    apply reminder_due_iff in D1. apply reminder_due_iff in D2.
    unfold reminderMinutes in *; simpl in H1, H2. lia.
  - intros m Hm. unfold reminderMinutes. cbn [filter].
    destruct (reminder_due (Some m) 60) eqn:A;
      [apply reminder_due_iff in A; lia|].
    destruct (reminder_due (Some m) 30) eqn:B;
      [apply reminder_due_iff in B; lia|].
    destruct (reminder_due (Some m) 10) eqn:C;
      [apply reminder_due_iff in C; lia|].
    reflexivity.
Qed.

(* ================================================================== *)
(** ** Runs on the same date and minute *)

Lemma candidates_same_clock env1 env2 tables :
  todayDate env2 = todayDate env1 ->
  candidates env2 tables = candidates env1 tables.
Proof.
  intros E. unfold candidates. now rewrite E.
Qed.

Lemma candidates_same_date env1 env2 tables rows :
  todayDate env2 = todayDate env1 ->
  candidates env2 (push_rows tables rows) = candidates env1 tables.
Proof.
  intros E. unfold candidates. now rewrite E.
Qed.

Lemma due_pairs_same_minute env1 env2 apps :
  currentHour env2 = currentHour env1 ->
  currentMinute env2 = currentMinute env1 ->
  due_pairs env2 apps = due_pairs env1 apps.
Proof.
  intros Eh Em. unfold due_pairs, due_tiers, minutesUntil_of.
  now rewrite Eh, Em.
Qed.

Lemma same_clock_with_insert_accepted env g :
  todayDate (with_insert_accepted env g) = todayDate env
  /\ currentHour (with_insert_accepted env g) = currentHour env
  /\ currentMinute (with_insert_accepted env g) = currentMinute env.
Proof.
  unfold todayDate, currentHour, currentMinute, with_insert_accepted.
  cbn [now]. repeat split.
Qed.

Lemma same_clock_with_send_email env f :
  todayDate (with_send_email env f) = todayDate env
  /\ currentHour (with_send_email env f) = currentHour env
  /\ currentMinute (with_send_email env f) = currentMinute env.
Proof.
  unfold todayDate, currentHour, currentMinute, with_send_email.
  cbn [now]. repeat split.
Qed.

(* ================================================================== *)
(** ** Calls of a run, by kind *)

Lemma posts_of_pair_calls env tables p :
  filter is_post (pair_calls env tables p) = post_for env tables p.
Proof.
  unfold pair_calls, post_for. simpl.
  destruct (patientEmail_for tables p); reflexivity.
Qed.

Lemma inserts_of_pair_calls env tables p :
  filter is_insert (pair_calls env tables p)
  = [Insert "notifications" (row_for tables p)].
Proof.
  unfold pair_calls, post_for. simpl.
  destruct (patientEmail_for tables p); reflexivity.
Qed.

Lemma writes_of_pair_calls env tables p :
  forallb (fun c => negb (is_write c) || is_notification_insert c)
    (pair_calls env tables p) = true.
Proof.
  unfold pair_calls, post_for. simpl.
  destruct (patientEmail_for tables p); reflexivity.
Qed.

Lemma posts_of_run env tables ps :
  filter is_post (flat_map (pair_calls env tables) ps)
  = flat_map (post_for env tables) ps.
Proof.
  induction ps as [|p ps IH]; [reflexivity|].
  cbn [flat_map]. now rewrite filter_app, posts_of_pair_calls, IH.
Qed.

Lemma inserts_of_run env tables ps :
  filter is_insert (flat_map (pair_calls env tables) ps)
  = map (fun p => Insert "notifications" (row_for tables p)) ps.
Proof.
  induction ps as [|p ps IH]; [reflexivity|].
  cbn [flat_map map]. now rewrite filter_app, inserts_of_pair_calls, IH.
Qed.

Lemma writes_of_run env tables ps :
  forallb (fun c => negb (is_write c) || is_notification_insert c)
    (flat_map (pair_calls env tables) ps) = true.
Proof.
  induction ps as [|p ps IH]; [reflexivity|].
  cbn [flat_map]. now rewrite forallb_app, writes_of_pair_calls, IH.
Qed.

(* ================================================================== *)
(** ** Failure of the candidate fetch *)

(** C2. When the appointments query fails, the invocation answers 500
    with body { error: message }, leaves the store as it was (no
    notification row) and issues neither an insert nor an email POST. *)
Theorem C2_fetch_failure_aborts_run :
  forall (env : Env) (method : string) (tables : Database) (message : string),
    String.eqb method "OPTIONS" = false ->
    appointments_fault env = Some message ->
    let r := invoke env method tables in
    status (fst r) = 500
    /\ body (fst r) = Some [("error", JS.JStr message)]
    /\ db (snd r) = tables
    /\ filter is_insert (calls (snd r)) = []
    /\ filter is_post (calls (snd r)) = [].
Proof.
  intros env method tables message Hm Hf r.
  destruct (invoke_fault env method tables message Hm Hf) as (R & D & C).
  fold r in R, D, C. rewrite R, D, C. repeat split.
Qed.

Lemma C2_witness_store_unreachable :
  let env := with_fault env_1330 "connection refused" in
  String.eqb "POST" "OPTIONS" = false
  /\ appointments_fault env = Some "connection refused"
  /\ status (fst (invoke env "POST" clinic)) = 500
  /\ body (fst (invoke env "POST" clinic))
     = Some [("error", JS.JStr "connection refused")]
  /\ db (snd (invoke env "POST" clinic)) = clinic
  /\ filter is_insert (calls (snd (invoke env "POST" clinic))) = []
  /\ filter is_post (calls (snd (invoke env "POST" clinic))) = [].
Proof.
  split; [reflexivity|]. split; [reflexivity|].
  exact (C2_fetch_failure_aborts_run (with_fault env_1330 "connection refused")
           "POST" clinic "connection refused" eq_refl eq_refl).
Defined.

(* ================================================================== *)
(** ** Independence of the two side effects *)

(** C3. On a run whose fetch succeeds: whatever the email function does
    (reject, non-2xx, 2xx) the notification table ends as the old rows
    followed by the row of every due pair the store accepts, so the row
    of a due pair whose email failed is in the table, addressed to its
    patient and pointing to its appointment; whatever the store answers
    to the inserts, the email POST of every due pair with an address is
    made; one insert is issued per due pair; and in either case the run
    goes through all due pairs and answers 200. *)
Theorem C3_email_and_insert_failures_are_isolated :
  forall (env : Env) (method : string) (tables : Database)
         (f : EmailPayload.t -> EmailOutcome) (g : Notification.t -> bool),
    String.eqb method "OPTIONS" = false ->
    appointments_fault env = None ->
    let ps := due_pairs env (candidates env tables) in
    let r := invoke env method tables in
    let r_mail := invoke (with_send_email env f) method tables in
    let r_store := invoke (with_insert_accepted env g) method tables in
    notifications (db (snd r_mail)) = notifications (db (snd r))
    /\ filter is_insert (calls (snd r_mail))
       = map (fun p => Insert "notifications" (row_for tables p)) ps
    /\ filter is_post (calls (snd r_store)) = filter is_post (calls (snd r))
    /\ filter is_post (calls (snd r_store)) = flat_map (post_for env tables) ps
    /\ fst r_mail = success_response (List.length ps)
    /\ fst r_store = success_response (List.length ps)
    /\ notifications (db (snd r_mail))
       = (notifications tables
          ++ filter (insert_accepted env) (map (row_for tables) ps))%list
    /\ (forall a t,
           In (a, t) ps ->
           let row := notification_row a t
                        (doctorName_of (doctor_of tables (Appointment.doctor_id a))) in
           In (Insert "notifications" row) (calls (snd r_mail))
           /\ (insert_accepted env row = true ->
               In row (notifications (db (snd r_mail))))
           /\ Notification.user_id row = Appointment.patient_id a
           /\ Notification.related_id row = Appointment.id a)
    /\ (forall a t address,
           In (a, t) ps ->
           patientEmail_of (user_of tables (Appointment.patient_id a)) = Some address ->
           In (Post (SUPABASE_URL env ++ "/functions/v1/send-email")
                    ("Bearer " ++ SUPABASE_SERVICE_ROLE_KEY env)
                    (emailPayload a t address
                       (patientName_of (profile_of tables (Appointment.patient_id a)))
                       (doctorName_of (doctor_of tables (Appointment.doctor_id a)))))
              (calls (snd r_store))).
Proof.
  intros env method tables f g Hm Hf ps r r_mail r_store.
  destruct (invoke_success env method tables Hm Hf) as (R & D & C).
  destruct (invoke_success (with_send_email env f) method tables Hm Hf)
    as (R1 & D1 & C1).
  destruct (invoke_success (with_insert_accepted env g) method tables Hm Hf)
    as (R2 & D2 & C2).
  fold r in R, D, C. fold r_mail in R1, D1, C1. fold r_store in R2, D2, C2.
  destruct (same_clock_with_send_email env f) as (Ed1 & Eh1 & Em1).
  destruct (same_clock_with_insert_accepted env g) as (Ed2 & Eh2 & Em2).
  rewrite (candidates_same_clock env (with_send_email env f) tables Ed1),
    (due_pairs_same_minute env (with_send_email env f) _ Eh1 Em1) in R1, D1, C1.
  rewrite (candidates_same_clock env (with_insert_accepted env g) tables Ed2),
    (due_pairs_same_minute env (with_insert_accepted env g) _ Eh2 Em2) in R2, D2, C2.
  fold ps in R, D, C, R1, D1, C1, R2, D2, C2.
  assert (T : notifications (db (snd r_mail))
              = (notifications tables
                 ++ filter (insert_accepted env) (map (row_for tables) ps))%list)
    by (rewrite D1; reflexivity).
  split; [rewrite D, D1; reflexivity|].
  split; [rewrite C1; cbn [filter is_insert]; rewrite inserts_of_run; reflexivity|].
  split; [rewrite C, C2; cbn [filter is_post]; rewrite !posts_of_run; reflexivity|].
  split; [rewrite C2; cbn [filter is_post]; rewrite posts_of_run; reflexivity|].
  split; [exact R1|]. split; [exact R2|]. split; [exact T|].
  split.
  - intros a t Hin row.
    split; [|split; [|split; reflexivity]].
    + rewrite C1. right. apply in_flat_map. exists (a, t). split; [exact Hin|].
      unfold pair_calls. rewrite !in_app_iff. right. right. left. reflexivity.
    + intros Acc. rewrite T. apply in_or_app. right.
      apply filter_In. split; [|exact Acc].
      apply in_map_iff. exists (a, t). split; [reflexivity|exact Hin].
  - intros a t address Hin He.
    rewrite C2. right. apply in_flat_map. exists (a, t). split; [exact Hin|].
    unfold pair_calls. rewrite !in_app_iff. right. left.
    unfold post_for, patientEmail_for. cbn [fst snd]. rewrite He.
    left. reflexivity.
Qed.

Lemma C3_witness_email_rejected_store_rejecting :
  let r := invoke env_1330 "POST" clinic in
  let r_mail := invoke (with_send_email env_1330 (fun _ => FetchRejected))
                  "POST" clinic in
  let r_store := invoke (with_insert_accepted env_1330 (fun _ => false))
                   "POST" clinic in
  String.eqb "POST" "OPTIONS" = false
  /\ appointments_fault env_1330 = None
  /\ notifications (db (snd r_mail)) = notifications (db (snd r))
  /\ filter is_post (calls (snd r_store)) = filter is_post (calls (snd r))
  /\ In (apt_1430, 60) (due_pairs env_1330 (candidates env_1330 clinic))
  /\ In (row_for clinic (apt_1430, 60)) (notifications (db (snd r_mail)))
  /\ In (Post (SUPABASE_URL env_1330 ++ "/functions/v1/send-email")
              ("Bearer " ++ SUPABASE_SERVICE_ROLE_KEY env_1330)
              (payload_for clinic (apt_1430, 60) "asha@example.org"))
        (calls (snd r_store)).
Proof.
  assert (Hin : In (apt_1430, 60) (due_pairs env_1330 (candidates env_1330 clinic)))
    by (vm_compute; left; reflexivity).
  split; [reflexivity|]. split; [reflexivity|].
  pose proof (C3_email_and_insert_failures_are_isolated env_1330 "POST" clinic
                (fun _ => FetchRejected) (fun _ => false) eq_refl eq_refl) as W.
  destruct W as (W1 & _ & W3 & _ & _ & _ & _ & W8 & W9).
  split; [exact W1|]. split; [exact W3|]. split; [exact Hin|].
  split.
  - exact (proj1 (proj2 (W8 apt_1430 60 Hin)) eq_refl).
  - exact (W9 apt_1430 60 "asha@example.org" Hin
             ltac:(vm_compute; reflexivity)).
Defined.

(* ================================================================== *)
(** ** Unresolved names and addresses *)

(** C4 fails as stated: with no profile row and no doctor row for the
    due pair, the email is still posted, carrying the fallback names. *)
Lemma C4_unresolved_names_do_not_skip_email :
  profile_of clinic_without_names "11111111-1111-4111-8111-111111111111" = None
  /\ doctor_of clinic_without_names "d0c00001-0000-4000-8000-000000000001" = None
  /\ due_pairs env_1330 (candidates env_1330 clinic_without_names)
     = [(apt_1430, 60)]
  /\ filter is_post (calls (snd (invoke env_1330 "POST" clinic_without_names)))
     = [Post "https://project.supabase.co/functions/v1/send-email"
             "Bearer service-role-key"
             {| EmailPayload.type := "appointment_reminder";
                EmailPayload.to := "asha@example.org";
                EmailPayload.patientName := "Patient";
                EmailPayload.doctorName := "Doctor";
                EmailPayload.date := "2026-01-17";
                EmailPayload.time := "14:30:00";
                EmailPayload.reminderMinutes := 60 |}].
Proof. vm_compute. repeat split. Qed.

(** C4, amended. For a due pair the email POST is skipped exactly when
    the patient's email address is not resolved (no user, no address or
    an empty one); an unresolved patient or doctor name is replaced by
    "Patient" or "Doctor" and the email is still posted; the notification
    insert is issued in every case. *)
Theorem C4_email_skipped_only_without_address :
  forall (env : Env) (a : Appointment.t) (t : Z) (sent : list string)
         (st : RunState),
    let r := send_reminder env a t sent st in
    let patientEmail := patientEmail_of (user_of (db st) (Appointment.patient_id a)) in
    let patientName := patientName_of (profile_of (db st) (Appointment.patient_id a)) in
    let doctorName := doctorName_of (doctor_of (db st) (Appointment.doctor_id a)) in
    exists new : list Call,
      calls (snd r) = (calls st ++ new)%list
      /\ filter is_insert new
         = [Insert "notifications" (notification_row a t doctorName)]
      /\ filter is_post new
         = match patientEmail with
           | Some address =>
               [Post (SUPABASE_URL env ++ "/functions/v1/send-email")
                     ("Bearer " ++ SUPABASE_SERVICE_ROLE_KEY env)
                     (emailPayload a t address patientName doctorName)]
           | None => []
           end
      /\ (profile_of (db st) (Appointment.patient_id a) = None ->
          patientName = "Patient")
      /\ (doctor_of (db st) (Appointment.doctor_id a) = None ->
          doctorName = "Doctor").
Proof.
  intros env a t sent st r patientEmail patientName doctorName.
  destruct (send_reminder_run env a t sent st) as (_ & _ & C). fold r in C.
  exists (pair_calls env (db st) (a, t)).
  split; [exact C|].
  split; [apply inserts_of_pair_calls|].
  split; [apply posts_of_pair_calls|].
  subst patientName doctorName.
  split; intros ->; reflexivity.
Qed.

(* ================================================================== *)
(** ** The date of the candidates *)

(** [todayDate] is the calendar date of the instant in UTC. *)
Lemma todayDate_utc env :
  todayDate env
  = Date.date_text (Date.civil_from_days (Date.Day (Date.timeValue (now env)))).
Proof.
  unfold todayDate, Date.toISOString.
  match goal with
  | |- hd _ (JS.split _ (?d ++ "T" ++ ?rest)) = _ =>
      change (d ++ "T" ++ rest) with (d ++ String "T" rest)
  end.
  now rewrite split_field by apply lacks_T_date_text.
Qed.

(** The candidates are exactly the rows dated the UTC calendar date of
    the instant whose status is scheduled; a row with another date, a
    null status, completed or cancelled is not among them and belongs to
    no pair the run handles. *)
Theorem candidates_are_utc_today_and_scheduled :
  forall (env : Env) (tables : Database) (a : Appointment.t),
    (In a (candidates env tables)
     <-> In a (appointments tables)
         /\ Appointment.appointment_date a
            = Date.date_text
                (Date.civil_from_days (Date.Day (Date.timeValue (now env))))
         /\ Appointment.status a = Some "scheduled")
    /\ (forall t, In (a, t) (due_pairs env (candidates env tables)) ->
                  In a (candidates env tables)).
Proof.
  intros env tables a. split.
  - unfold candidates. rewrite filter_In, andb_true_iff, String.eqb_eq.
    rewrite todayDate_utc. unfold status_is.
    destruct (Appointment.status a) as [st|].
    + rewrite String.eqb_eq. split.
      * intros (H1 & H2 & H3). subst. auto.
      * intros (H1 & H2 & H3). inversion H3. auto.
    + split; [intros (_ & _ & H)|intros (_ & _ & H)]; discriminate.
  - intros t H. apply in_due_pairs in H. tauto.
Qed.

(** Where the server's zone is UTC the local date and the UTC date
    agree, and the candidates are those of the local date. *)
Theorem candidates_utc_server :
  forall (env : Env) (tables : Database),
    Date.LocalTZA (now env) = 0 ->
    candidates env tables = spec_candidates env tables.
Proof.
  intros env tables Z0. unfold candidates, spec_candidates.
  rewrite todayDate_utc. unfold local_calendar_date, Date.LocalTime.
  now rewrite Z0, Z.add_0_r.
Qed.

Lemma candidates_utc_server_witness :
  Date.LocalTZA (now env_1330) = 0
  /\ candidates env_1330 clinic = spec_candidates env_1330 clinic.
Proof.
  split; [reflexivity|].
  exact (candidates_utc_server env_1330 clinic eq_refl).
Defined.

(** C5, at the failing input.  On a server two hours east of UTC at
    23:30 UTC the local clock shows 18 January 01:30, but the query asks
    for 17 January: the candidate is yesterday's 02:30 appointment, not
    today's, and yesterday's appointment gets the 60-minute reminder. *)
Theorem C5_candidates_taken_on_utc_date :
  local_calendar_date (now env_east) = "2026-01-18"
  /\ (currentHour env_east, currentMinute env_east) = (1, 30)
  /\ todayDate env_east = "2026-01-17"
  /\ spec_candidates env_east clinic_east = [apt_today_0230]
  /\ candidates env_east clinic_east = [apt_yesterday_0230]
  /\ hd_error (calls (snd (invoke env_east "POST" clinic_east)))
     = Some (Select "appointments"
               [("appointment_date", "2026-01-17"); ("status", "scheduled")]
               false)
  /\ map Notification.related_id
       (notifications (db (snd (invoke env_east "POST" clinic_east))))
     = ["a0000005-0000-4000-8000-000000000005"].
Proof. vm_compute. repeat split. Qed.

(* ================================================================== *)
(** ** The count in the response *)

(** C6 fails as stated: when the store rejects the insert of the one due
    pair, no notification row is created, yet the response counts one
    reminder, and its body has the two fields success and remindersSent
    and nothing about the failure. *)
Lemma C6_count_includes_failed_insert :
  let r := invoke (with_insert_accepted env_1330 (fun _ => false)) "POST" clinic in
  notifications (db (snd r)) = []
  /\ filter is_insert (calls (snd r))
     = [Insert "notifications" (row_for clinic (apt_1430, 60))]
  /\ status (fst r) = 200
  /\ body (fst r) = Some [("success", JS.JBool true); ("remindersSent", JS.JNum 1)].
Proof. vm_compute. repeat split. Qed.

Lemma rows_created_length env tables ps :
  (List.length (rows_created env tables ps) <= List.length ps)%nat.
Proof.
  unfold rows_created.
  rewrite <- (length_map (row_for tables) ps). apply filter_length_le.
Qed.

(** C6, amended. On a run whose fetch succeeds the response is 200 with
    body exactly { success: true, remindersSent: n }, where n is the
    number of due (appointment, tier) pairs among the candidates, each
    counted whether or not its email or its insert succeeded; the rows
    created are those of the due pairs the store accepted, at most n. *)
Theorem C6_remindersSent_counts_due_pairs :
  forall (env : Env) (method : string) (tables : Database),
    String.eqb method "OPTIONS" = false ->
    appointments_fault env = None ->
    let ps := due_pairs env (candidates env tables) in
    let r := invoke env method tables in
    status (fst r) = 200
    /\ body (fst r) = Some [("success", JS.JBool true);
                            ("remindersSent", JS.JNum (Z.of_nat (List.length ps)))]
    /\ notifications (db (snd r))
       = (notifications tables ++ rows_created env tables ps)%list
    /\ (List.length (rows_created env tables ps) <= List.length ps)%nat.
Proof.
  intros env method tables Hm Hf ps r.
  destruct (invoke_success env method tables Hm Hf) as (R & D & _).
  fold r in R, D. fold ps in R, D. rewrite R, D.
  repeat split. apply rows_created_length.
Qed.

Lemma C6_witness_one_due_pair :
  String.eqb "POST" "OPTIONS" = false
  /\ appointments_fault env_1330 = None
  /\ status (fst (invoke env_1330 "POST" clinic)) = 200
  /\ body (fst (invoke env_1330 "POST" clinic))
     = Some [("success", JS.JBool true);
             ("remindersSent",
              JS.JNum (Z.of_nat (List.length
                                   (due_pairs env_1330 (candidates env_1330 clinic)))))].
Proof.
  split; [reflexivity|]. split; [reflexivity|].
  pose proof (C6_remindersSent_counts_due_pairs env_1330 "POST" clinic
                eq_refl eq_refl) as W.
  destruct W as (W1 & W2 & _).
  split; [exact W1|exact W2].
Defined.

(* ================================================================== *)
(** ** Each due pair once *)

Lemma NoDup_reminderMinutes : NoDup reminderMinutes.
Proof.
  unfold reminderMinutes.
  repeat constructor; simpl; intros H; repeat destruct H as [H|H]; try lia; auto.
Qed.

Lemma NoDup_pair_with {A B : Type} (a : A) (l : list B) :
  NoDup l -> NoDup (map (pair a) l).
Proof.
  induction 1 as [|x l Hx ND IH]; simpl; constructor; [|exact IH].
  intros Hin. apply in_map_iff in Hin.
  destruct Hin as (y & E & Hy). inversion E; subst. contradiction.
Qed.

Lemma NoDup_due_pairs env apps : NoDup apps -> NoDup (due_pairs env apps).
Proof.
  induction apps as [|a apps IH]; intros ND; [constructor|].
  inversion ND as [|? ? Hnotin ND']; subst.
  change (due_pairs env (a :: apps))
    with (map (pair a) (due_tiers env a) ++ due_pairs env apps)%list.
  apply NoDup_app.
  - apply NoDup_pair_with, NoDup_filter, NoDup_reminderMinutes.
  - apply IH, ND'.
  - intros [a' t] Hin Hin'. apply in_map_iff in Hin.
    destruct Hin as (t' & E & _). inversion E; subst.
    apply in_due_pairs in Hin'. tauto.
Qed.

(** C7 fails as stated: of three candidates exactly one is in a window,
    one insert is issued and one row created, but the patient has no
    email address and no email POST is made. *)
Lemma C7_no_email_attempt_without_address :
  let r := invoke env_1330 "POST" clinic_without_email in
  candidates env_1330 clinic_without_email = [apt_0900; apt_1430; apt_1600]
  /\ due_pairs env_1330 (candidates env_1330 clinic_without_email)
     = [(apt_1430, 60)]
  /\ List.length (notifications (db (snd r))) = 1%nat
  /\ filter is_post (calls (snd r)) = [].
Proof. vm_compute. repeat split. Qed.

(** C7, amended. On a run whose fetch succeeds every due pair is handled
    once, in order: one insert per due pair and one email POST per due
    pair whose patient has an address; distinct candidates give distinct
    pairs.  With three candidates of which exactly one pair [p] is due,
    exactly one insert is issued (one row is created if the store accepts
    it, none otherwise) and exactly one email POST is made if the
    patient's address resolves, none otherwise. *)
Theorem C7_each_due_pair_handled_once :
  forall (env : Env) (method : string) (tables : Database),
    String.eqb method "OPTIONS" = false ->
    appointments_fault env = None ->
    let ps := due_pairs env (candidates env tables) in
    let r := invoke env method tables in
    filter is_insert (calls (snd r))
    = map (fun p => Insert "notifications" (row_for tables p)) ps
    /\ filter is_post (calls (snd r)) = flat_map (post_for env tables) ps
    /\ (NoDup (candidates env tables) -> NoDup ps)
    /\ (forall a1 a2 a3 p,
           candidates env tables = [a1; a2; a3] ->
           ps = [p] ->
           filter is_insert (calls (snd r))
           = [Insert "notifications" (row_for tables p)]
           /\ notifications (db (snd r))
              = (notifications tables
                 ++ (if insert_accepted env (row_for tables p)
                     then [row_for tables p] else []))%list
           /\ filter is_post (calls (snd r))
              = match patientEmail_for tables p with
                | Some address =>
                    [Post (SUPABASE_URL env ++ "/functions/v1/send-email")
                          ("Bearer " ++ SUPABASE_SERVICE_ROLE_KEY env)
                          (payload_for tables p address)]
                | None => []
                end
           /\ fst r = success_response 1).
Proof.
  intros env method tables Hm Hf ps r.
  destruct (invoke_success env method tables Hm Hf) as (R & D & C).
  fold r in R, D, C. fold ps in R, D, C.
  assert (I : filter is_insert (calls (snd r))
              = map (fun p => Insert "notifications" (row_for tables p)) ps).
  { rewrite C. cbn [filter is_insert]. apply inserts_of_run. }
  assert (P : filter is_post (calls (snd r)) = flat_map (post_for env tables) ps).
  { rewrite C. cbn [filter is_post]. apply posts_of_run. }
  split; [exact I|]. split; [exact P|].
  split; [apply NoDup_due_pairs|].
  intros a1 a2 a3 p _ E.
  rewrite I, P, D, R, E. unfold rows_created, post_for. cbn [map flat_map filter List.length].
  rewrite app_nil_r. repeat split.
Qed.

Lemma C7_witness_three_candidates_one_due :
  String.eqb "POST" "OPTIONS" = false
  /\ appointments_fault env_1330 = None
  /\ candidates env_1330 clinic = [apt_0900; apt_1430; apt_1600]
  /\ due_pairs env_1330 (candidates env_1330 clinic) = [(apt_1430, 60)]
  /\ filter is_insert (calls (snd (invoke env_1330 "POST" clinic)))
     = [Insert "notifications" (row_for clinic (apt_1430, 60))]
  /\ fst (invoke env_1330 "POST" clinic) = success_response 1.
Proof.
  split; [reflexivity|]. split; [reflexivity|].
  assert (Hc : candidates env_1330 clinic = [apt_0900; apt_1430; apt_1600])
    by reflexivity.
  assert (Hp : due_pairs env_1330 (candidates env_1330 clinic) = [(apt_1430, 60)])
    by reflexivity.
  split; [exact Hc|]. split; [exact Hp|].
  pose proof (C7_each_due_pair_handled_once env_1330 "POST" clinic
                eq_refl eq_refl) as W.
  destruct W as (_ & _ & _ & W).
  destruct (W apt_0900 apt_1430 apt_1600 (apt_1430, 60) Hc Hp) as (W1 & _ & _ & W4).
  split; [exact W1|exact W4].
Defined.

(* ================================================================== *)
(** ** Two runs in the same minute *)

(** C8. Two invocations on the same date, hour and minute, the second on
    the store the first one left: the pairs due in the first run are the
    pairs due in the second, each run issues the insert of the pair's
    notification row, and the table ends with the rows the store accepted
    in the first run followed by those it accepted in the second; a store
    that accepts the row holds it twice, and when the pair is the only
    due pair exactly two rows are added.  Nothing in the second run looks
    at the rows already there. *)
Theorem C8_second_run_inserts_again :
  forall (env1 env2 : Env) (method : string) (tables : Database)
         (p : Appointment.t * Z),
    String.eqb method "OPTIONS" = false ->
    appointments_fault env1 = None ->
    appointments_fault env2 = None ->
    todayDate env2 = todayDate env1 ->
    currentHour env2 = currentHour env1 ->
    currentMinute env2 = currentMinute env1 ->
    In p (due_pairs env1 (candidates env1 tables)) ->
    let ps := due_pairs env1 (candidates env1 tables) in
    let r1 := invoke env1 method tables in
    let r2 := invoke env2 method (db (snd r1)) in
    let row := row_for tables p in
    due_pairs env2 (candidates env2 (db (snd r1))) = ps
    /\ In (Insert "notifications" row) (calls (snd r1))
    /\ In (Insert "notifications" row) (calls (snd r2))
    /\ notifications (db (snd r2))
       = (notifications tables ++ rows_created env1 tables ps
          ++ rows_created env2 tables ps)%list
    /\ (insert_accepted env1 row = true -> In row (rows_created env1 tables ps))
    /\ (insert_accepted env2 row = true -> In row (rows_created env2 tables ps))
    /\ (ps = [p] ->
        insert_accepted env1 row = true ->
        insert_accepted env2 row = true ->
        notifications (db (snd r2)) = (notifications tables ++ [row; row])%list).
Proof.
  intros env1 env2 method tables p Hm Hf1 Hf2 Ed Eh Em Hin ps r1 r2 row.
  destruct (invoke_success env1 method tables Hm Hf1) as (_ & D1 & C1).
  fold r1 in D1, C1. fold ps in D1, C1.
  destruct (invoke_success env2 method (db (snd r1)) Hm Hf2) as (_ & D2 & C2).
  fold r2 in D2, C2.
  assert (Eps : due_pairs env2 (candidates env2 (db (snd r1))) = ps).
  { rewrite D1, (candidates_same_date env1 env2) by exact Ed.
    now apply due_pairs_same_minute. }
  rewrite Eps in D2, C2. rewrite D1 in D2, C2.
  rewrite rows_created_push_rows, push_rows_app in D2.
  assert (Hcall : forall env, In (Insert "notifications" row)
                                 (flat_map (pair_calls env tables) ps)).
  { intros env. apply in_flat_map. exists p. split; [exact Hin|].
    unfold pair_calls. rewrite !in_app_iff. right. right. now left. }
  assert (Hrow : forall env, insert_accepted env row = true ->
                             In row (rows_created env tables ps)).
  { intros env A. unfold rows_created. apply filter_In. split; [|exact A].
    apply in_map_iff. exists p. now split. }
  split; [exact Eps|].
  split; [rewrite C1; right; apply Hcall|].
  split; [rewrite C2; right; apply (Hcall env2)|].
  split; [rewrite D2; reflexivity|].
  split; [apply Hrow|].
  split; [apply Hrow|].
  intros E A1 A2. rewrite D2. cbn [notifications push_rows]. rewrite E.
  unfold rows_created. cbn [map filter]. subst row. now rewrite A1, A2.
Qed.

Lemma C8_witness_two_runs_within_1330 :
  let p := (apt_1430, 60) in
  let r1 := invoke env_1330 "POST" clinic in
  let r2 := invoke env_1330_later "POST" (db (snd r1)) in
  todayDate env_1330_later = todayDate env_1330
  /\ currentHour env_1330_later = currentHour env_1330
  /\ currentMinute env_1330_later = currentMinute env_1330
  /\ In p (due_pairs env_1330 (candidates env_1330 clinic))
  /\ notifications (db (snd r2))
     = (notifications clinic ++ [row_for clinic p; row_for clinic p])%list.
Proof.
  assert (Hin : In (apt_1430, 60) (due_pairs env_1330 (candidates env_1330 clinic)))
    by (vm_compute; left; reflexivity).
  split; [reflexivity|]. split; [reflexivity|]. split; [reflexivity|].
  split; [exact Hin|].
  pose proof (C8_second_run_inserts_again env_1330 env_1330_later "POST" clinic
                (apt_1430, 60) eq_refl eq_refl eq_refl eq_refl eq_refl eq_refl
                Hin) as W.
  destruct W as (_ & _ & _ & _ & _ & _ & W).
  exact (W eq_refl eq_refl eq_refl).
Defined.

(* ================================================================== *)
(** ** What a run may change *)

(** C9. Whatever the request, the clock and the collaborators do, an
    invocation leaves the appointments, profiles, doctors and users
    tables as they were, keeps every notification row that was there
    (the new table is the old one followed by the added rows), and the
    only writing call it issues is an insert into notifications: no
    insert elsewhere, no update, no delete. *)
Theorem C9_only_notification_inserts :
  forall (env : Env) (method : string) (tables : Database),
    let r := invoke env method tables in
    appointments (db (snd r)) = appointments tables
    /\ profiles (db (snd r)) = profiles tables
    /\ doctors (db (snd r)) = doctors tables
    /\ auth_users (db (snd r)) = auth_users tables
    /\ (exists added : list Notification.t,
           notifications (db (snd r)) = (notifications tables ++ added)%list)
    /\ forallb (fun c => negb (is_write c) || is_notification_insert c)
         (calls (snd r)) = true.
Proof.
  intros env method tables r.
  destruct (String.eqb method "OPTIONS") eqn:Hm.
  - apply String.eqb_eq in Hm. subst method r.
    rewrite invoke_options. cbn [snd db calls forallb].
    repeat split. exists []. now rewrite app_nil_r.
  - destruct (appointments_fault env) as [message|] eqn:Hf.
    + destruct (invoke_fault env method tables message Hm Hf) as (_ & D & C).
      fold r in D, C. rewrite D, C. repeat split.
      exists []. now rewrite app_nil_r.
    + destruct (invoke_success env method tables Hm Hf) as (_ & D & C).
      fold r in D, C. rewrite D, C. cbn [forallb is_write negb orb].
      rewrite writes_of_run. repeat split.
      eexists. reflexivity.
Qed.

(* ================================================================== *)
(** ** The console of a run *)

Lemma send_reminder_console env a t sent st :
  console (snd (send_reminder env a t sent st))
  = (console st ++ pair_console env (db st) (a, t))%list.
Proof.
  unfold send_reminder, pair_console, patientEmail_for, payload_for, email_log,
    select_profile, select_doctor, getUserById, insert_notification,
    send_email_reminder, fetch_send_email, bind, ret, issue, log, read_db; simpl.
  destruct (patientEmail_of (user_of (db st) (Appointment.patient_id a)))
    as [e|]; simpl.
  - destruct (send_email env _) as [|code text]; simpl;
      [| destruct ((200 <=? code) && (code <=? 299)); simpl ];
      (destruct (insert_accepted env _); simpl; now rewrite <- !app_assoc).
  - destruct (insert_accepted env _); simpl; reflexivity.
Qed.

Lemma narrates_nil env sent st : narrates env [] st (sent, st).
Proof. unfold narrates; simpl. now rewrite app_nil_r. Qed.

Lemma narrates_trans env ps qs sent st r1 r2 :
  handles env ps sent st r1 ->
  narrates env ps st r1 ->
  narrates env qs (snd r1) r2 ->
  narrates env (ps ++ qs) st r2.
Proof.
  intros (_ & D & _) N1 N2. unfold narrates in *.
  rewrite N2, N1, D, flat_map_app, <- app_assoc. reflexivity.
Qed.

Lemma tier_loop_narrates env a tiers :
  forall sent st,
    narrates env
      (map (pair a) (filter (reminder_due (minutesUntil_of env a)) tiers)) st
      (for_of tiers
         (fun reminderTime sent' =>
            if reminder_due (minutesUntil_of env a) reminderTime
            then send_reminder env a reminderTime sent'
            else ret sent')
         sent st).
Proof.
  induction tiers as [|t tiers IH]; intros sent st.
  - apply narrates_nil.
  - rewrite for_of_cons. simpl filter.
    destruct (reminder_due (minutesUntil_of env a) t) eqn:Due.
    + change (map (pair a) (t :: filter (reminder_due (minutesUntil_of env a)) tiers))
        with ([(a, t)] ++ map (pair a)
                (filter (reminder_due (minutesUntil_of env a)) tiers))%list.
      eapply narrates_trans; [apply send_reminder_handles | | apply IH].
      unfold narrates. rewrite send_reminder_console. simpl.
      now rewrite app_nil_r.
    + apply IH.
Qed.

Lemma appointment_loop_narrates env apps :
  forall sent st,
    narrates env (due_pairs env apps) st
      (for_of apps (check_appointment env) sent st).
Proof.
  induction apps as [|a apps IH]; intros sent st.
  - apply narrates_nil.
  - rewrite for_of_cons.
    change (due_pairs env (a :: apps))
      with (map (pair a) (due_tiers env a) ++ due_pairs env apps)%list.
    eapply narrates_trans;
      [apply check_appointment_handles | apply tier_loop_narrates | apply IH].
Qed.

(** The console of a whole invocation whose appointments query succeeds. *)
Lemma invoke_console env method tables :
  String.eqb method "OPTIONS" = false ->
  appointments_fault env = None ->
  let ps := due_pairs env (candidates env tables) in
  console (snd (invoke env method tables))
  = (console_log ("Checking reminders at " ++ todayDate env ++ " "
                  ++ JS.template (currentHour env) ++ ":"
                  ++ JS.template (currentMinute env))
     :: console_log ("Found "
                     ++ JS.template (Z.of_nat (List.length (candidates env tables)))
                     ++ " scheduled appointments for today")
     :: flat_map (pair_console env tables) ps
     ++ [console_log ("Sent " ++ JS.template (Z.of_nat (List.length ps))
                      ++ " reminders")])%list.
Proof.
  intros Hm Hf ps. subst ps.
  unfold invoke, handler. rewrite Hm.
  cbv beta iota delta [try_block select_appointments bind ret log issue read_db].
  cbv beta iota delta [db calls console].
  rewrite Hf. cbv beta iota.
  fold (candidates env tables).
  match goal with
  | |- context [for_of ?apps ?body ?s ?st] =>
      pose proof (appointment_loop_handles env apps s st) as H;
      pose proof (appointment_loop_narrates env apps s st) as N;
      destruct (for_of apps body s st) as [sent st'] eqn:E
  end.
  destruct H as (K & _ & _). unfold narrates in N.
  cbn [fst snd db console app] in K, N.
  cbv beta iota delta [fst snd].
  cbv beta iota delta [db calls console].
  fold (console st'). rewrite N. subst sent.
  rewrite length_map. reflexivity.
Qed.

Lemma errors_of_pair_console env tables p :
  List.length (filter is_error (pair_console env tables p))
  = List.length (filter (email_failed env tables) [p]).
Proof.
  unfold pair_console, email_failed, email_log. cbn [filter is_error].
  destruct (patientEmail_for tables p) as [e|]; [|reflexivity].
  destruct (send_email env (payload_for tables p e)) as [|code text] eqn:O.
  - reflexivity.
  - destruct (ok (Responded code text)); reflexivity.
Qed.

Lemma errors_of_run_console env tables ps :
  List.length (filter is_error (flat_map (pair_console env tables) ps))
  = List.length (filter (email_failed env tables) ps).
Proof.
  induction ps as [|p ps IH]; [reflexivity|].
  cbn [flat_map]. rewrite filter_app, length_app, errors_of_pair_console, IH.
  cbn [filter]. destruct (email_failed env tables p); reflexivity.
Qed.

Lemma due_tiers_at_most_one env a : (List.length (due_tiers env a) <= 1)%nat.
Proof.
  unfold due_tiers, reminderMinutes. cbn [filter].
  destruct (minutesUntil_of env a) as [x|]; [|simpl; lia].
  destruct (reminder_due (Some x) 60) eqn:A;
    destruct (reminder_due (Some x) 30) eqn:B;
    destruct (reminder_due (Some x) 10) eqn:C;
    cbn [List.length]; try lia;
    rewrite ?reminder_due_iff in *; lia.
Qed.

Lemma due_pairs_length env apps :
  (List.length (due_pairs env apps) <= List.length apps)%nat.
Proof.
  induction apps as [|a apps IH]; [simpl; lia|].
  change (due_pairs env (a :: apps))
    with (map (pair a) (due_tiers env a) ++ due_pairs env apps)%list.
  rewrite length_app, length_map. cbn [List.length].
  pose proof (due_tiers_at_most_one env a). lia.
Qed.

Lemma current_time_bounds env :
  0 <= currentHour env < 24 /\ 0 <= currentMinute env < 60.
Proof.
  unfold currentHour, currentMinute, Date.getHours, Date.getMinutes,
    Date.HourFromTime, Date.MinFromTime.
  split; apply Z.mod_pos_bound; lia.
Qed.

Lemma patientEmail_of_nonempty authUser e :
  patientEmail_of authUser = Some e -> e <> EmptyString.
Proof.
  unfold patientEmail_of, JS.truthy.
  destruct authUser as [u|]; [|discriminate].
  destruct (AuthUser.email u) as [s|]; [|discriminate].
  destruct (String.eqb s EmptyString) eqn:E; simpl; [discriminate|].
  intros H. inversion H; subst. now apply String.eqb_neq.
Qed.

(* ================================================================== *)
(** ** Further properties of the scheduler *)

(** When no pair is due (an empty table, or every candidate outside the
    three windows) the run makes the appointments query and no other
    call, leaves the store as it was and answers remindersSent: 0. *)
Theorem quiet_run_only_queries :
  forall (env : Env) (method : string) (tables : Database),
    String.eqb method "OPTIONS" = false ->
    appointments_fault env = None ->
    due_pairs env (candidates env tables) = [] ->
    let r := invoke env method tables in
    fst r = success_response 0
    /\ db (snd r) = tables
    /\ calls (snd r)
       = [Select "appointments"
            [("appointment_date", todayDate env); ("status", "scheduled")] false].
Proof.
  intros env method tables Hm Hf E r.
  destruct (invoke_success env method tables Hm Hf) as (R & D & C).
  fold r in R, D, C. rewrite E in R, D, C.
  rewrite R, D, C. unfold rows_created. cbn [map filter flat_map List.length].
  now rewrite push_rows_nil.
Qed.

Lemma quiet_run_witness :
  String.eqb "POST" "OPTIONS" = false
  /\ appointments_fault env_1330 = None
  /\ due_pairs env_1330 (candidates env_1330 quiet_clinic) = []
  /\ fst (invoke env_1330 "POST" quiet_clinic) = success_response 0
  /\ db (snd (invoke env_1330 "POST" quiet_clinic)) = quiet_clinic.
Proof.
  assert (E : due_pairs env_1330 (candidates env_1330 quiet_clinic) = [])
    by (vm_compute; reflexivity).
  split; [reflexivity|]. split; [reflexivity|]. split; [exact E|].
  pose proof (quiet_run_only_queries env_1330 "POST" quiet_clinic
                eq_refl eq_refl E) as W.
  destruct W as (W1 & W2 & _). split; [exact W1|exact W2].
Defined.

(** A run never counts, inserts or emails more than once per candidate:
    remindersSent, the number of inserts and the number of email POSTs
    are each at most the number of candidates. *)
Theorem run_handles_each_candidate_at_most_once :
  forall (env : Env) (method : string) (tables : Database),
    String.eqb method "OPTIONS" = false ->
    appointments_fault env = None ->
    let r := invoke env method tables in
    let n := List.length (due_pairs env (candidates env tables)) in
    fst r = success_response n
    /\ (n <= List.length (candidates env tables))%nat
    /\ List.length (filter is_insert (calls (snd r))) = n
    /\ (List.length (filter is_post (calls (snd r))) <= n)%nat
    /\ (List.length (notifications (db (snd r)))
        <= List.length (notifications tables) + n)%nat.
Proof.
  intros env method tables Hm Hf r n.
  destruct (invoke_success env method tables Hm Hf) as (R & D & C).
  fold r in R, D, C. subst n.
  set (ps := due_pairs env (candidates env tables)) in *.
  split; [exact R|].
  split; [apply due_pairs_length|].
  rewrite C, D. cbn [filter is_insert is_post notifications push_rows].
  rewrite inserts_of_run, posts_of_run, length_map, length_app.
  split; [reflexivity|]. split.
  - clear. induction ps as [|p ps IH]; [simpl; lia|].
    cbn [flat_map]. rewrite length_app. unfold post_for at 1.
    destruct (patientEmail_for tables p); cbn [List.length]; lia.
  - pose proof (rows_created_length env tables ps). lia.
Qed.

Lemma run_handles_each_candidate_at_most_once_witness :
  String.eqb "POST" "OPTIONS" = false
  /\ appointments_fault env_1330 = None
  /\ (List.length (due_pairs env_1330 (candidates env_1330 clinic))
      <= List.length (candidates env_1330 clinic))%nat.
Proof.
  split; [reflexivity|]. split; [reflexivity|].
  pose proof (run_handles_each_candidate_at_most_once env_1330 "POST" clinic
                eq_refl eq_refl) as W.
  destruct W as (_ & W & _). exact W.
Defined.

(** A rejected notification insert leaves no trace: the response, the
    console and the calls of a run are the same whatever the store
    answers to the inserts. *)
Theorem rejected_insert_is_silent :
  forall (env : Env) (method : string) (tables : Database)
         (g : Notification.t -> bool),
    String.eqb method "OPTIONS" = false ->
    appointments_fault env = None ->
    let r := invoke env method tables in
    let r' := invoke (with_insert_accepted env g) method tables in
    fst r' = fst r
    /\ console (snd r') = console (snd r)
    /\ calls (snd r') = calls (snd r).
Proof.
  intros env method tables g Hm Hf r r'.
  destruct (invoke_success env method tables Hm Hf) as (R & _ & C).
  destruct (invoke_success (with_insert_accepted env g) method tables Hm Hf)
    as (R' & _ & C').
  pose proof (invoke_console env method tables Hm Hf) as K.
  pose proof (invoke_console (with_insert_accepted env g) method tables Hm Hf) as K'.
  fold r in R, C, K. fold r' in R', C', K'.
  cbv zeta in K, K'.
  destruct (same_clock_with_insert_accepted env g) as (Ed & Eh & Em).
  rewrite (candidates_same_clock env (with_insert_accepted env g) tables Ed),
    (due_pairs_same_minute env (with_insert_accepted env g) _ Eh Em) in R', C', K'.
  rewrite Ed, Eh, Em in K'.
  rewrite R, R', C, C', K, K'.
  split; [reflexivity|]. split; reflexivity.
Qed.

Lemma rejected_insert_is_silent_witness :
  String.eqb "POST" "OPTIONS" = false
  /\ appointments_fault env_1330 = None
  /\ console (snd (invoke (with_insert_accepted env_1330 (fun _ => false))
                     "POST" clinic))
     = console (snd (invoke env_1330 "POST" clinic)).
Proof.
  split; [reflexivity|]. split; [reflexivity|].
  pose proof (rejected_insert_is_silent env_1330 "POST" clinic (fun _ => false)
                eq_refl eq_refl) as W.
  destruct W as (_ & W & _). exact W.
Defined.

(** On a run whose fetch succeeds, the console.error entries are one per
    email POST that was rejected or answered outside 2xx, and nothing
    else: a pair without an address, a failed lookup or a rejected insert
    writes no error. *)
Theorem console_errors_are_the_failed_emails :
  forall (env : Env) (method : string) (tables : Database),
    String.eqb method "OPTIONS" = false ->
    appointments_fault env = None ->
    List.length (filter is_error (console (snd (invoke env method tables))))
    = List.length (filter (email_failed env tables)
                     (due_pairs env (candidates env tables))).
Proof.
  intros env method tables Hm Hf.
  rewrite (invoke_console env method tables Hm Hf). cbv zeta.
  cbn [filter is_error]. rewrite filter_app, length_app.
  cbn [filter is_error List.length]. rewrite Nat.add_0_r.
  apply errors_of_run_console.
Qed.

Lemma console_errors_witness :
  let env := with_send_email env_1330 (fun _ => Responded 403 "testing mode") in
  String.eqb "POST" "OPTIONS" = false
  /\ appointments_fault env = None
  /\ List.length (filter is_error (console (snd (invoke env "POST" clinic))))
     = List.length (filter (email_failed env clinic)
                      (due_pairs env (candidates env clinic))).
Proof.
  split; [reflexivity|]. split; [reflexivity|].
  exact (console_errors_are_the_failed_emails
           (with_send_email env_1330 (fun _ => Responded 403 "testing mode"))
           "POST" clinic eq_refl eq_refl).
Defined.

(** minutesUntil is taken within the day, so it never exceeds the
    appointment's own minute of the day: a tier [t] is never due, at any
    instant and on any date, for an appointment earlier than [t - 1]
    minutes after midnight (no 60-minute reminder before 00:59, no
    30-minute one before 00:29, no 10-minute one before 00:09). *)
Theorem tier_never_due_before_its_lead_time :
  forall (env : Env) (tables : Database) (a : Appointment.t) (h m s t : Z),
    Appointment.appointment_time a = time_text h m s ->
    0 <= h < 24 -> 0 <= m < 60 ->
    h * 60 + m < t - 1 ->
    reminder_due (minutesUntil_of env a) t = false
    /\ ~ In (a, t) (due_pairs env (candidates env tables)).
Proof.
  intros env tables a h m s t Ht Hh Hm Hlt.
  assert (E : minutesUntil_of env a
              = Some (h * 60 + m - (currentHour env * 60 + currentMinute env))).
  { unfold minutesUntil_of, minutesUntilAppointment.
    now rewrite (appointmentTimeInMinutes_time_text a h m s Ht Hh Hm). }
  assert (F : reminder_due (minutesUntil_of env a) t = false).
  { destruct (reminder_due (minutesUntil_of env a) t) eqn:D; [|reflexivity].
    rewrite E in D. apply reminder_due_iff in D.
    pose proof (current_time_bounds env). lia. }
  split; [exact F|].
  intros Hin. apply in_due_pairs in Hin. destruct Hin as (_ & _ & D).
  rewrite F in D. discriminate.
Qed.

Lemma tier_never_due_witness_0030 :
  Appointment.appointment_time apt_0030 = time_text 0 30 0
  /\ 0 * 60 + 30 < 60 - 1
  /\ reminder_due (minutesUntil_of env_1330 apt_0030) 60 = false.
Proof.
  assert (Ht : Appointment.appointment_time apt_0030 = time_text 0 30 0)
    by reflexivity.
  split; [exact Ht|]. split; [lia|].
  exact (proj1 (tier_never_due_before_its_lead_time env_1330 clinic apt_0030
                  0 30 0 60 Ht ltac:(lia) ltac:(lia) ltac:(lia))).
Defined.

Lemma invoke_each_rows (envs : list Env) (method : string) (tables : Database)
  (p : Appointment.t * Z) :
  String.eqb method "OPTIONS" = false ->
  (forall env, In env envs ->
     appointments_fault env = None
     /\ due_pairs env (candidates env tables) = [p]
     /\ insert_accepted env (row_for tables p) = true) ->
  forall rows,
    invoke_each envs method (push_rows tables rows)
    = push_rows tables (rows ++ repeat (row_for tables p) (List.length envs)).
Proof.
  intros Hm. induction envs as [|env envs IH]; intros H rows.
  - simpl. now rewrite app_nil_r.
  - cbn [invoke_each List.length repeat].
    destruct (H env (or_introl eq_refl)) as (Hf & Hp & Ha).
    destruct (invoke_success env method (push_rows tables rows) Hm Hf)
      as (_ & D & _).
    rewrite D.
    change (candidates env (push_rows tables rows)) with (candidates env tables).
    rewrite Hp, rows_created_push_rows, push_rows_app.
    unfold rows_created at 1. cbn [map filter]. rewrite Ha.
    rewrite IH by (intros e He; apply H; now right).
    now rewrite <- app_assoc.
Qed.

(** The window is three minutes wide and nothing records what was sent:
    k invocations, each at an instant where the pair is the only due
    pair and on a store that accepts its row, leave k copies of the
    row, one per invocation, and change no other table.  A scheduler
    firing every minute so sends each tier three times. *)
Theorem every_run_in_the_window_inserts_again :
  forall (envs : list Env) (method : string) (tables : Database)
         (p : Appointment.t * Z),
    String.eqb method "OPTIONS" = false ->
    (forall env, In env envs ->
       appointments_fault env = None
       /\ due_pairs env (candidates env tables) = [p]
       /\ insert_accepted env (row_for tables p) = true) ->
    invoke_each envs method tables
    = push_rows tables (repeat (row_for tables p) (List.length envs)).
Proof.
  intros envs method tables p Hm H.
  rewrite <- (push_rows_nil tables) at 1.
  now rewrite (invoke_each_rows envs method tables p Hm H).
Qed.

Lemma three_minutes_three_rows :
  String.eqb "POST" "OPTIONS" = false
  /\ map currentMinute three_minutes = [29; 30; 31]
  /\ notifications (invoke_each three_minutes "POST" clinic)
     = [row_for clinic (apt_1430, 60); row_for clinic (apt_1430, 60);
        row_for clinic (apt_1430, 60)].
Proof.
  split; [reflexivity|]. split; [vm_compute; reflexivity|].
  assert (H : forall env, In env three_minutes ->
                appointments_fault env = None
                /\ due_pairs env (candidates env clinic) = [(apt_1430, 60)]
                /\ insert_accepted env (row_for clinic (apt_1430, 60)) = true).
  { intros env [E|[E|[E|[]]]]; subst env; vm_compute; repeat split. }
  rewrite (every_run_in_the_window_inserts_again three_minutes "POST" clinic
             (apt_1430, 60) eq_refl H).
  reflexivity.
Defined.

(** Every response carries the two CORS headers; its status is 500
    exactly when the request is not a preflight and the appointments
    query failed, and 200 otherwise (a run with failed emails or rejected
    inserts included). *)
Theorem response_status_and_headers :
  forall (env : Env) (method : string) (tables : Database),
    let response := fst (invoke env method tables) in
    incl corsHeaders (headers response)
    /\ (status response = 500
        <-> String.eqb method "OPTIONS" = false /\ appointments_fault env <> None)
    /\ (status response = 200 \/ status response = 500).
Proof.
  intros env method tables response. subst response.
  destruct (String.eqb method "OPTIONS") eqn:Hm.
  - apply String.eqb_eq in Hm. subst method. rewrite invoke_options.
    cbn [fst status headers]. split; [apply incl_refl|].
    split; [|now left]. split; [discriminate|intros [? _]; discriminate].
  - destruct (appointments_fault env) as [message|] eqn:Hf.
    + destruct (invoke_fault env method tables message Hm Hf) as (R & _ & _).
      rewrite R. cbn [status headers error_response]. unfold json_headers.
      split; [apply incl_appl, incl_refl|].
      split; [|now right]. split; [intros _; split; [reflexivity|discriminate]|reflexivity].
    + destruct (invoke_success env method tables Hm Hf) as (R & _ & _).
      rewrite R. cbn [status headers success_response]. unfold json_headers.
      split; [apply incl_appl, incl_refl|].
      split; [|now left]. split; [discriminate|intros [_ H]; now elim H].
Qed.

(** Every notification row a run adds belongs to a candidate that is due:
    it is addressed to that appointment's patient, points to that
    appointment, names the tier in its title, and has type
    appointment_reminder and action /appointments. *)
Theorem created_rows_belong_to_due_candidates :
  forall (env : Env) (method : string) (tables : Database),
    String.eqb method "OPTIONS" = false ->
    appointments_fault env = None ->
    exists added : list Notification.t,
      notifications (db (snd (invoke env method tables)))
      = (notifications tables ++ added)%list
      /\ forall row, In row added ->
           exists a t,
             In a (candidates env tables)
             /\ In t reminderMinutes
             /\ reminder_due (minutesUntil_of env a) t = true
             /\ Notification.user_id row = Appointment.patient_id a
             /\ Notification.related_id row = Appointment.id a
             /\ Notification.title row
                = "Appointment in " ++ JS.template t ++ " minutes"
             /\ Notification.type row = "appointment_reminder"
             /\ Notification.action_url row = "/appointments".
Proof.
  intros env method tables Hm Hf.
  destruct (invoke_success env method tables Hm Hf) as (_ & D & _).
  exists (rows_created env tables (due_pairs env (candidates env tables))).
  split; [now rewrite D|].
  intros row Hin. unfold rows_created in Hin.
  apply filter_In in Hin. destruct Hin as [Hin _].
  apply in_map_iff in Hin. destruct Hin as ([a t] & E & Hp).
  apply in_due_pairs in Hp. destruct Hp as (Ha & Ht & Hd).
  exists a, t. subst row. repeat split; assumption.
Qed.

Lemma created_rows_witness :
  String.eqb "POST" "OPTIONS" = false
  /\ appointments_fault env_1330 = None
  /\ exists added : list Notification.t,
       notifications (db (snd (invoke env_1330 "POST" clinic)))
       = (notifications clinic ++ added)%list.
Proof.
  split; [reflexivity|]. split; [reflexivity|].
  destruct (created_rows_belong_to_due_candidates env_1330 "POST" clinic
              eq_refl eq_refl) as (added & E & _).
  exists added. exact E.
Defined.

(** Every email POST of a run goes to the project's send-email function
    with the service-role key as bearer, is a reminder for one of the
    three tiers, carries the date the run queried and the time text of a
    candidate, and is addressed to a non-empty address. *)
Theorem email_posts_are_reminders_to_an_address :
  forall (env : Env) (method : string) (tables : Database)
         (url authorization : string) (payload : EmailPayload.t),
    String.eqb method "OPTIONS" = false ->
    appointments_fault env = None ->
    In (Post url authorization payload) (calls (snd (invoke env method tables))) ->
    url = SUPABASE_URL env ++ "/functions/v1/send-email"
    /\ authorization = "Bearer " ++ SUPABASE_SERVICE_ROLE_KEY env
    /\ EmailPayload.type payload = "appointment_reminder"
    /\ EmailPayload.to payload <> EmptyString
    /\ In (EmailPayload.reminderMinutes payload) reminderMinutes
    /\ EmailPayload.date payload = todayDate env
    /\ exists a, In a (candidates env tables)
                 /\ EmailPayload.time payload = Appointment.appointment_time a
                 /\ reminder_due (minutesUntil_of env a)
                      (EmailPayload.reminderMinutes payload) = true.
Proof.
  intros env method tables url authorization payload Hm Hf Hin.
  destruct (invoke_success env method tables Hm Hf) as (_ & _ & C).
  rewrite C in Hin. destruct Hin as [Hin|Hin]; [discriminate|].
  apply in_flat_map in Hin. destruct Hin as ([a t] & Hp & Hc).
  apply in_due_pairs in Hp. destruct Hp as (Ha & Ht & Hd).
  unfold pair_calls, post_for in Hc. rewrite !in_app_iff in Hc.
  destruct Hc as [Hc|[Hc|Hc]].
  - simpl in Hc. repeat destruct Hc as [Hc|Hc]; try discriminate; contradiction.
  - destruct (patientEmail_for tables (a, t)) as [e|] eqn:Pe; [|contradiction].
    destruct Hc as [Hc|[]]. inversion Hc; subst; clear Hc.
    unfold payload_for, emailPayload. cbn [fst snd EmailPayload.type EmailPayload.to
      EmailPayload.reminderMinutes EmailPayload.date EmailPayload.time].
    repeat split; try assumption.
    + unfold patientEmail_for in Pe. now apply patientEmail_of_nonempty in Pe.
    + unfold candidates in Ha. apply filter_In in Ha. destruct Ha as [_ Ha].
      apply andb_true_iff in Ha. destruct Ha as [Ha _].
      now apply String.eqb_eq in Ha.
    + exists a. repeat split; assumption.
  - destruct Hc as [Hc|[]]. discriminate.
Qed.

Lemma email_posts_witness :
  String.eqb "POST" "OPTIONS" = false
  /\ appointments_fault env_1330 = None
  /\ In (Post (SUPABASE_URL env_1330 ++ "/functions/v1/send-email")
              ("Bearer " ++ SUPABASE_SERVICE_ROLE_KEY env_1330)
              (payload_for clinic (apt_1430, 60) "asha@example.org"))
        (calls (snd (invoke env_1330 "POST" clinic)))
  /\ EmailPayload.to (payload_for clinic (apt_1430, 60) "asha@example.org")
     <> EmptyString.
Proof.
  assert (Hin : In (Post (SUPABASE_URL env_1330 ++ "/functions/v1/send-email")
                         ("Bearer " ++ SUPABASE_SERVICE_ROLE_KEY env_1330)
                         (payload_for clinic (apt_1430, 60) "asha@example.org"))
                   (calls (snd (invoke env_1330 "POST" clinic))))
    by (vm_compute; do 4 right; left; reflexivity).
  split; [reflexivity|]. split; [reflexivity|]. split; [exact Hin|].
  pose proof (email_posts_are_reminders_to_an_address env_1330 "POST" clinic
                _ _ _ eq_refl eq_refl Hin) as W.
  destruct W as (_ & _ & _ & W & _). exact W.
Defined.

(* ================================================================== *)
(** ** The send-email function *)

Lemma configured_key_none (menv : MailEnv) :
  RESEND_API_KEY menv = None \/ RESEND_API_KEY menv = Some EmptyString ->
  configured_key menv = None.
Proof.
  unfold configured_key. intros [E|E]; rewrite E; reflexivity.
Qed.

(** Without an API key (unset or empty) every request other than a
    preflight is answered 500 with the error RESEND_API_KEY not
    configured, whatever its body, and nothing is sent to the provider. *)
Theorem send_email_needs_api_key :
  forall (menv : MailEnv) (method : string) (req_json : string + EmailRequest.t),
    String.eqb method "OPTIONS" = false ->
    RESEND_API_KEY menv = None \/ RESEND_API_KEY menv = Some EmptyString ->
    let run := send_email_handler menv method req_json in
    status (mail_response run) = 500
    /\ body (mail_response run)
       = Some [("error", JS.JStr "RESEND_API_KEY not configured")]
    /\ mail_requests run = [].
Proof.
  intros menv method req_json Hm Hk run. subst run.
  unfold send_email_handler. rewrite Hm, (configured_key_none menv Hk).
  repeat split.
Qed.

Lemma send_email_needs_api_key_witness :
  String.eqb "POST" "OPTIONS" = false
  /\ (RESEND_API_KEY mail_without_key = None
      \/ RESEND_API_KEY mail_without_key = Some EmptyString)
  /\ status (mail_response
               (send_email_handler mail_without_key "POST" (inr reminder_request)))
     = 500.
Proof.
  split; [reflexivity|]. split; [left; reflexivity|].
  exact (proj1 (send_email_needs_api_key mail_without_key "POST"
                  (inr reminder_request) eq_refl (or_introl eq_refl))).
Defined.

(** When the provider answers outside 2xx, the function hands the
    provider's status and error text on: status and body are
    { success: false, status, error } with that status, provided the
    status is one a response with a body may carry (200 to 599 and not
    304); otherwise building the response throws and the answer is 500.
    One request was made either way. *)
Theorem send_email_passes_provider_status :
  forall (menv : MailEnv) (method key errorText : string)
         (request : EmailRequest.t) (answer : ResendAnswer),
    String.eqb method "OPTIONS" = false ->
    configured_key menv = Some key ->
    resend menv (resend_request key request) = ResendAnswered answer ->
    status_ok (answer_status answer) = false ->
    answer_text answer = inr errorText ->
    let run := send_email_handler menv method (inr request) in
    mail_requests run = [resend_request key request]
    /\ (Response_init_allowed (answer_status answer) = true ->
        status (mail_response run) = answer_status answer
        /\ body (mail_response run)
           = Some [("success", JS.JBool false);
                   ("status", JS.JNum (answer_status answer));
                   ("error", JS.JStr errorText)])
    /\ (Response_init_allowed (answer_status answer) = false ->
        mail_response run
        = error_response (Response_init_message menv (answer_status answer))).
Proof.
  intros menv method key errorText request answer Hm Hk Hr Hs Ht run. subst run.
  unfold send_email_handler. rewrite Hm, Hk, Hr, Hs, Ht. cbn [negb].
  destruct (Response_init_allowed (answer_status answer)); cbn.
  - repeat split. discriminate.
  - repeat split; discriminate.
Qed.

Lemma send_email_passes_provider_status_witness :
  let run := send_email_handler mail_testing_mode "POST" (inr reminder_request) in
  String.eqb "POST" "OPTIONS" = false
  /\ configured_key mail_testing_mode = Some "re_test"
  /\ Response_init_allowed 403 = true
  /\ status (mail_response run) = 403
  /\ body (mail_response run)
     = Some [("success", JS.JBool false); ("status", JS.JNum 403);
             ("error", JS.JStr "testing mode")].
Proof.
  split; [reflexivity|]. split; [reflexivity|]. split; [reflexivity|].
  pose proof (send_email_passes_provider_status mail_testing_mode "POST" "re_test"
                "testing mode" reminder_request
                {| answer_status := 403; answer_text := inr "testing mode";
                   answer_json := JsonRejects "not read" |}
                eq_refl eq_refl eq_refl eq_refl eq_refl) as W.
  destruct W as (_ & W & _). exact (W eq_refl).
Defined.

Lemma accepted_email_is_answered_200 menv method req_json :
  String.eqb method "OPTIONS" = false ->
  (exists key request answer id,
      configured_key menv = Some key
      /\ req_json = inr request
      /\ resend menv (resend_request key request) = ResendAnswered answer
      /\ status_ok (answer_status answer) = true
      /\ answer_json answer = JsonValue id) ->
  status (mail_response (send_email_handler menv method req_json)) = 200.
Proof.
  intros Hm (key & request & answer & id & Hk & Hq & Hr & Hs & Hj). subst req_json.
  unfold send_email_handler. rewrite Hm, Hk, Hr, Hs, Hj. reflexivity.
Qed.

Lemma send_email_ok_iff_provider_accepted_helper menv request :
  status_ok (status (mail_response
                       (send_email_handler menv "POST" (inr request)))) = true
  <-> exists key answer id,
        configured_key menv = Some key
        /\ resend menv (resend_request key request) = ResendAnswered answer
        /\ status_ok (answer_status answer) = true
        /\ answer_json answer = JsonValue id.
Proof.
  split.
  - unfold send_email_handler. cbn [String.eqb Ascii.eqb Bool.eqb].
    destruct (configured_key menv) as [key|] eqn:Hk; [|cbn; discriminate].
    destruct (resend menv (resend_request key request)) as [message|answer] eqn:Hr;
      [cbn; discriminate|].
    destruct (status_ok (answer_status answer)) eqn:Hs; cbn [negb].
    + destruct (answer_json answer) as [message|message|id] eqn:Hj;
        [cbn; discriminate|cbn; discriminate|].
      intros _. exists key, answer, id. repeat split; assumption.
    + destruct (answer_text answer) as [message|errorText]; [cbn; discriminate|].
      destruct (Response_init_allowed (answer_status answer)); cbn;
        [rewrite Hs|]; discriminate.
  - intros (key & answer & id & Hk & Hr & Hs & Hj).
    rewrite (accepted_email_is_answered_200 menv "POST" (inr request) eq_refl);
      [reflexivity|].
    exists key, request, answer, id. repeat split; assumption.
Qed.

(** The function answers 2xx only for an email the provider accepted: the
    status of a non-preflight answer is 2xx exactly when the key is
    configured, the body was read, the provider answered the one request
    2xx and its answer could be read as JSON; the status is then 200. *)
Theorem send_email_ok_iff_provider_accepted :
  forall (menv : MailEnv) (method : string) (req_json : string + EmailRequest.t),
    String.eqb method "OPTIONS" = false ->
    let run := send_email_handler menv method req_json in
    (status_ok (status (mail_response run)) = true
     <-> exists key request answer id,
           configured_key menv = Some key
           /\ req_json = inr request
           /\ resend menv (resend_request key request) = ResendAnswered answer
           /\ status_ok (answer_status answer) = true
           /\ answer_json answer = JsonValue id)
    /\ (status_ok (status (mail_response run)) = true ->
        status (mail_response run) = 200).
Proof.
  intros menv method req_json Hm run.
  assert (Back : (exists key request answer id,
                     configured_key menv = Some key
                     /\ req_json = inr request
                     /\ resend menv (resend_request key request) = ResendAnswered answer
                     /\ status_ok (answer_status answer) = true
                     /\ answer_json answer = JsonValue id) ->
                 status (mail_response run) = 200)
    by apply (accepted_email_is_answered_200 menv method req_json Hm).
  assert (Forth : status_ok (status (mail_response run)) = true ->
                  exists key request answer id,
                    configured_key menv = Some key
                    /\ req_json = inr request
                    /\ resend menv (resend_request key request) = ResendAnswered answer
                    /\ status_ok (answer_status answer) = true
                    /\ answer_json answer = JsonValue id).
  { subst run. clear Back. unfold send_email_handler. rewrite Hm.
    destruct (configured_key menv) as [key|] eqn:Hk; [|cbn; discriminate].
    destruct req_json as [message|request]; [cbn; discriminate|].
    destruct (resend menv (resend_request key request)) as [message|answer] eqn:Hr;
      [cbn; discriminate|].
    destruct (status_ok (answer_status answer)) eqn:Hs; cbn [negb].
    - destruct (answer_json answer) as [message|message|id] eqn:Hj;
        [cbn; discriminate|cbn; discriminate|].
      intros _. exists key, request, answer, id. repeat split; assumption.
    - destruct (answer_text answer) as [message|errorText]; [cbn; discriminate|].
      destruct (Response_init_allowed (answer_status answer)); cbn;
        [rewrite Hs|]; discriminate. }
  split; [split; [exact Forth|]|].
  - intros H. now rewrite (Back H).
  - intros H. apply Back, Forth, H.
Qed.

Lemma send_email_ok_witness :
  String.eqb "POST" "OPTIONS" = false
  /\ status (mail_response
               (send_email_handler mail_accepting "POST" (inr reminder_request)))
     = 200.
Proof.
  split; [reflexivity|].
  pose proof (send_email_ok_iff_provider_accepted mail_accepting "POST"
                (inr reminder_request) eq_refl) as W.
  destruct W as (_ & W). exact (W eq_refl).
Defined.

(** One invocation makes at most one request to the provider; a request
    is made only with a configured key and a body that was read, goes to
    the provider's emails endpoint with that key as bearer, from the
    fixed sender, and to the one address of the body. *)
Theorem send_email_makes_at_most_one_request :
  forall (menv : MailEnv) (method : string) (req_json : string + EmailRequest.t),
    let run := send_email_handler menv method req_json in
    (List.length (mail_requests run) <= 1)%nat
    /\ forall outgoing, In outgoing (mail_requests run) ->
         exists key request,
           configured_key menv = Some key
           /\ req_json = inr request
           /\ String.eqb method "OPTIONS" = false
           /\ outgoing = resend_request key request
           /\ ResendRequest.url outgoing = "https://api.resend.com/emails"
           /\ ResendRequest.authorization outgoing = "Bearer " ++ key
           /\ ResendRequest.from outgoing = "CURAX Healthcare <onboarding@resend.dev>"
           /\ ResendRequest.to outgoing = [EmailRequest.to request].
Proof.
  intros menv method req_json run. subst run.
  unfold send_email_handler.
  destruct (String.eqb method "OPTIONS") eqn:Hm; [cbn; split; [lia|contradiction]|].
  destruct (configured_key menv) as [key|] eqn:Hk; [|cbn; split; [lia|contradiction]].
  destruct req_json as [message|request]; [cbn; split; [lia|contradiction]|].
  assert (One : forall run, mail_requests run = [resend_request key request] ->
            (List.length (mail_requests run) <= 1)%nat
            /\ forall outgoing, In outgoing (mail_requests run) ->
                 exists key0 request0,
                   Some key = Some key0
                   /\ @inr string _ request = inr request0
                   /\ false = false
                   /\ outgoing = resend_request key0 request0
                   /\ ResendRequest.url outgoing = "https://api.resend.com/emails"
                   /\ ResendRequest.authorization outgoing = "Bearer " ++ key0
                   /\ ResendRequest.from outgoing
                      = "CURAX Healthcare <onboarding@resend.dev>"
                   /\ ResendRequest.to outgoing = [EmailRequest.to request0]).
  { intros run E. rewrite E. split; [simpl; lia|].
    intros outgoing [H|[]]. subst outgoing.
    exists key, request. repeat split. }
  destruct (resend menv (resend_request key request)) as [message|answer];
    [apply One; reflexivity|].
  destruct (status_ok (answer_status answer)); cbn [negb].
  - destruct (answer_json answer); apply One; reflexivity.
  - destruct (answer_text answer); [apply One; reflexivity|].
    destruct (Response_init_allowed (answer_status answer)); apply One; reflexivity.
Qed.

(* ================================================================== *)
(** ** The scheduler's email answered by the send-email function *)

Lemma posts_and_failures env tables ps :
  (forall payload, ok (send_email env payload) = false) ->
  List.length (filter (email_failed env tables) ps)
  = List.length (flat_map (post_for env tables) ps).
Proof.
  intros Hall. induction ps as [|p ps IH]; [reflexivity|].
  cbn [filter flat_map]. rewrite length_app. unfold email_failed at 1, post_for at 1.
  destruct (patientEmail_for tables p) as [e|].
  - rewrite Hall. cbn [negb List.length]. now rewrite IH.
  - cbn [List.length]. exact IH.
Qed.

(** For the reminder the scheduler posts for tier [t] to [address]: the
    scheduler sees a 2xx answer exactly when the key is configured and
    the provider accepted the email; the email handed to the provider is
    addressed to [address] alone and its subject names the tier. *)
Theorem reminder_email_ok_iff_provider_accepted :
  forall (stringify : JS.JsonObject -> string) (menv : MailEnv)
         (a : Appointment.t) (t : Z) (address patientName doctorName : string),
    let payload := emailPayload a t address patientName doctorName in
    let outgoing := fun key => resend_request key (request_of_payload payload) in
    (ok (answer_of_send_email stringify menv payload) = true
     <-> exists key answer id,
           configured_key menv = Some key
           /\ resend menv (outgoing key) = ResendAnswered answer
           /\ status_ok (answer_status answer) = true
           /\ answer_json answer = JsonValue id)
    /\ forall key,
         ResendRequest.to (outgoing key) = [address]
         /\ ResendRequest.subject (outgoing key)
            = "Appointment Reminder (" ++ JS.template t ++ " min) - CURAX Healthcare".
Proof.
  intros stringify menv a t address patientName doctorName payload outgoing.
  split; [|intros key; split; reflexivity].
  unfold answer_of_send_email. cbn [ok].
  fold (status_ok (status (mail_response
          (send_email_handler menv "POST" (inr (request_of_payload payload)))))).
  destruct (send_email_ok_iff_provider_accepted_helper menv
              (request_of_payload payload)) as [F B].
  split.
  - intros H. destruct (F H) as (key & answer & id & H1 & H2 & H3 & H4).
    exists key, answer, id. repeat split; assumption.
  - intros (key & answer & id & H1 & H2 & H3 & H4). apply B.
    exists key, answer, id. repeat split; assumption.
Qed.

Lemma answer_without_key stringify menv payload :
  RESEND_API_KEY menv = None \/ RESEND_API_KEY menv = Some EmptyString ->
  ok (answer_of_send_email stringify menv payload) = false
  /\ mail_requests (send_email_handler menv "POST" (inr (request_of_payload payload)))
     = [].
Proof.
  intros Hk. unfold answer_of_send_email, send_email_handler.
  cbn [String.eqb Ascii.eqb Bool.eqb].
  rewrite (configured_key_none menv Hk). split; reflexivity.
Qed.

(** With the send-email function answering the scheduler's POSTs and no
    API key configured there: the run still answers 200 and counts every
    due pair, creates the same notification rows, logs one error per
    POST it made, and no email is handed to the provider. *)
Theorem scheduler_without_mail_key_still_notifies :
  forall (stringify : JS.JsonObject -> string) (env : Env) (menv : MailEnv)
         (method : string) (tables : Database),
    String.eqb method "OPTIONS" = false ->
    appointments_fault env = None ->
    RESEND_API_KEY menv = None \/ RESEND_API_KEY menv = Some EmptyString ->
    let r := invoke (with_send_email env (answer_of_send_email stringify menv))
               method tables in
    let ps := due_pairs env (candidates env tables) in
    fst r = success_response (List.length ps)
    /\ notifications (db (snd r))
       = (notifications tables ++ rows_created env tables ps)%list
    /\ List.length (filter is_error (console (snd r)))
       = List.length (filter is_post (calls (snd r)))
    /\ forall payload,
         mail_requests (send_email_handler menv "POST"
                          (inr (request_of_payload payload))) = [].
Proof.
  intros stringify env menv method tables Hm Hf Hk r ps.
  set (env' := with_send_email env (answer_of_send_email stringify menv)) in *.
  destruct (invoke_success env' method tables Hm Hf) as (R & D & C).
  pose proof (invoke_console env' method tables Hm Hf) as K. cbv zeta in K.
  fold r in R, D, C, K.
  destruct (same_clock_with_send_email env (answer_of_send_email stringify menv))
    as (Ed & Eh & Em). fold env' in Ed, Eh, Em.
  rewrite (candidates_same_clock env env' tables Ed),
    (due_pairs_same_minute env env' _ Eh Em) in R, D, C, K.
  fold ps in R, D, C, K.
  split; [exact R|]. split; [rewrite D; reflexivity|]. split.
  - rewrite K, C. cbn [filter is_error is_post].
    rewrite filter_app, length_app. cbn [filter is_error List.length].
    rewrite Nat.add_0_r, errors_of_run_console, posts_of_run.
    apply posts_and_failures. intros payload.
    apply (answer_without_key stringify menv payload Hk).
  - intros payload. apply (answer_without_key stringify menv payload Hk).
Qed.

Lemma scheduler_without_mail_key_witness :
  let r := invoke (with_send_email env_1330
                     (answer_of_send_email (fun _ => EmptyString) mail_without_key))
             "POST" clinic in
  String.eqb "POST" "OPTIONS" = false
  /\ appointments_fault env_1330 = None
  /\ (RESEND_API_KEY mail_without_key = None
      \/ RESEND_API_KEY mail_without_key = Some EmptyString)
  /\ fst r = success_response
               (List.length (due_pairs env_1330 (candidates env_1330 clinic)))
  /\ List.length (filter is_error (console (snd r)))
     = List.length (filter is_post (calls (snd r))).
Proof.
  split; [reflexivity|]. split; [reflexivity|]. split; [left; reflexivity|].
  pose proof (scheduler_without_mail_key_still_notifies (fun _ => EmptyString)
                env_1330 mail_without_key "POST" clinic eq_refl eq_refl
                (or_introl eq_refl)) as W.
  destruct W as (W1 & _ & W3 & _). split; [exact W1|exact W3].
Defined.

(* ================================================================== *)
(** ** Which rows a run evaluates *)

Lemma first_call_of_run env method tables :
  String.eqb method "OPTIONS" = false ->
  appointments_fault env = None ->
  hd_error (calls (snd (invoke env method tables)))
  = Some (Select "appointments"
            [("appointment_date", todayDate env); ("status", "scheduled")] false).
Proof.
  intros Hm Hf.
  destruct (invoke_success env method tables Hm Hf) as (_ & _ & C).
  now rewrite C.
Qed.

Lemma insert_calls_of_run env method tables row :
  String.eqb method "OPTIONS" = false ->
  appointments_fault env = None ->
  (In (Insert "notifications" row) (calls (snd (invoke env method tables)))
   <-> exists a t,
         In (a, t) (due_pairs env (candidates env tables))
         /\ row = row_for tables (a, t)).
Proof.
  intros Hm Hf.
  destruct (invoke_success env method tables Hm Hf) as (_ & _ & C).
  rewrite C. split.
  - intros [H|H]; [discriminate|].
    apply in_flat_map in H. destruct H as ([a t] & Hp & Hc).
    exists a, t. split; [exact Hp|].
    unfold pair_calls, post_for in Hc. rewrite !in_app_iff in Hc.
    destruct Hc as [Hc|[Hc|Hc]].
    + simpl in Hc. repeat destruct Hc as [Hc|Hc]; try discriminate; contradiction.
    + destruct (patientEmail_for tables (a, t)); [|contradiction].
      destruct Hc as [Hc|[]]. discriminate.
    + destruct Hc as [Hc|[]]. now inversion Hc.
  - intros (a & t & Hp & ->). right. apply in_flat_map. exists (a, t).
    split; [exact Hp|].
    unfold pair_calls. rewrite !in_app_iff. right. right. left. reflexivity.
Qed.

(** The query a run makes asks for the UTC calendar date of the instant
    and status scheduled, and the run issues the insert of a notification
    row exactly for the rows of the appointments table with that date and
    that status that pass the window test for a tier: a row with another
    date, a null status, completed or cancelled gets no reminder. *)
Theorem run_evaluates_utc_today_scheduled :
  forall (env : Env) (method : string) (tables : Database),
    String.eqb method "OPTIONS" = false ->
    appointments_fault env = None ->
    let r := invoke env method tables in
    let utc_date := Date.date_text
                      (Date.civil_from_days (Date.Day (Date.timeValue (now env)))) in
    hd_error (calls (snd r))
    = Some (Select "appointments"
              [("appointment_date", utc_date); ("status", "scheduled")] false)
    /\ forall row,
         In (Insert "notifications" row) (calls (snd r))
         <-> exists a t,
               In a (appointments tables)
               /\ Appointment.appointment_date a = utc_date
               /\ Appointment.status a = Some "scheduled"
               /\ In t reminderMinutes
               /\ reminder_due (minutesUntil_of env a) t = true
               /\ row = notification_row a t
                          (doctorName_of (doctor_of tables (Appointment.doctor_id a))).
Proof.
  intros env method tables Hm Hf r utc_date. subst r utc_date.
  rewrite <- todayDate_utc.
  split; [apply first_call_of_run; assumption|].
  intros row. rewrite (insert_calls_of_run env method tables row Hm Hf).
  split.
  - intros (a & t & Hp & ->). apply in_due_pairs in Hp.
    destruct Hp as (Ha & Ht & Hd).
    apply (proj1 (candidates_are_utc_today_and_scheduled env tables a)) in Ha.
    rewrite <- todayDate_utc in Ha. destruct Ha as (H1 & H2 & H3).
    exists a, t. repeat split; assumption.
  - intros (a & t & H1 & H2 & H3 & Ht & Hd & ->).
    exists a, t. split; [|reflexivity].
    apply in_due_pairs. split; [|split; assumption].
    apply (proj1 (candidates_are_utc_today_and_scheduled env tables a)).
    rewrite <- todayDate_utc. repeat split; assumption.
Qed.

Lemma run_evaluates_utc_today_witness :
  String.eqb "POST" "OPTIONS" = false
  /\ appointments_fault env_east = None
  /\ hd_error (calls (snd (invoke env_east "POST" clinic_east)))
     = Some (Select "appointments"
               [("appointment_date",
                 Date.date_text
                   (Date.civil_from_days
                      (Date.Day (Date.timeValue (now env_east)))));
                ("status", "scheduled")] false).
Proof.
  split; [reflexivity|]. split; [reflexivity|].
  exact (proj1 (run_evaluates_utc_today_scheduled env_east "POST" clinic_east
                  eq_refl eq_refl)).
Defined.

(** On a server whose local zone is UTC the run does what the
    specification asks: its query is for the server-local calendar date
    and status scheduled, and the rows that get a notification insert
    are exactly the scheduled rows of the local date that pass the
    window test on the local clock. *)
Theorem run_on_utc_server_evaluates_local_today :
  forall (env : Env) (method : string) (tables : Database),
    String.eqb method "OPTIONS" = false ->
    appointments_fault env = None ->
    Date.LocalTZA (now env) = 0 ->
    let r := invoke env method tables in
    hd_error (calls (snd r))
    = Some (Select "appointments"
              [("appointment_date", local_calendar_date (now env));
               ("status", "scheduled")] false)
    /\ forall row,
         In (Insert "notifications" row) (calls (snd r))
         <-> exists a t,
               In a (spec_candidates env tables)
               /\ In t reminderMinutes
               /\ reminder_due (minutesUntil_of env a) t = true
               /\ row = notification_row a t
                          (doctorName_of (doctor_of tables (Appointment.doctor_id a))).
Proof.
  intros env method tables Hm Hf Z0 r. subst r.
  assert (E : local_calendar_date (now env) = todayDate env).
  { rewrite todayDate_utc. unfold local_calendar_date, Date.LocalTime.
    now rewrite Z0, Z.add_0_r. }
  rewrite E. split; [apply first_call_of_run; assumption|].
  intros row. rewrite (insert_calls_of_run env method tables row Hm Hf).
  rewrite <- (candidates_utc_server env tables Z0).
  split.
  - intros (a & t & Hp & ->). apply in_due_pairs in Hp.
    destruct Hp as (Ha & Ht & Hd). exists a, t. repeat split; assumption.
  - intros (a & t & Ha & Ht & Hd & ->). exists a, t. split; [|reflexivity].
    apply in_due_pairs. repeat split; assumption.
Qed.

Lemma run_on_utc_server_witness :
  String.eqb "POST" "OPTIONS" = false
  /\ appointments_fault env_1330 = None
  /\ Date.LocalTZA (now env_1330) = 0
  /\ hd_error (calls (snd (invoke env_1330 "POST" clinic)))
     = Some (Select "appointments"
               [("appointment_date", local_calendar_date (now env_1330));
                ("status", "scheduled")] false).
Proof.
  split; [reflexivity|]. split; [reflexivity|]. split; [reflexivity|].
  exact (proj1 (run_on_utc_server_evaluates_local_today env_1330 "POST" clinic
                  eq_refl eq_refl eq_refl)).
Defined.
